(** * gws_ai_toolkit: the two demo front ends and the document store

  Shallow embedding of

  - [apps/ai_table_standalone_app/example.jsx] (module [AiTable]): the
    table analyst page: table and sheet selection, side panels, row
    search and the demo chat;
  - [apps/rag_example.jsx] (module [RagChat]): the document chat page:
    mock sources, message list, send / new chat / suggestion handlers;
  - the document store of the RAG service interface (module
    [RagService]) and its retrieval, streaming and upload operations
    (modules [RagRetrieval], [RagStream], [RagUpload]), which are
    Python code outside the two pages and are modelled from the spec;
  - [kill_port_processes.sh] (module [KillPort]).

  React state is a record; a handler is a function on that record (all
  the setters one handler calls are applied in one batch); a callback
  registered with [setTimeout] is a pending timer of the state.

  JS strings are modelled as [string]: sequences of code units in the
  range U+0000..U+00FF.  On that range [trim], [toLowerCase] and
  [includes] below are the ECMAScript functions. *)

From stdpp Require Import gmap strings list.
From Stdlib Require Import ZArith NArith List String Ascii Bool Lia.
From Stdlib Require Import DecimalString.
From Stdlib Require DecimalPos DecimalZ.
From Stdlib Require QArith.
From Stdlib Require Import Sorted.
Import ListNotations.

Local Open Scope string_scope.
Local Open Scope list_scope.

(** ** Error kinds of the service interface *)

(** Modelled from the spec: the error taxonomy of the RAG service
  interface (its Python classes are not among the sources). *)
Inductive RagError :=
| InvalidInput
| NotFound
| BackendUnavailable
| BackendRejected
| UnsupportedMethod.

(** ** ECMAScript primitives used by the pages *)

Module JS.

(** How a call ends for its caller: it returns a value or it throws. *)
Inductive completion (A : Type) : Type :=
| normal (v : A)
| throw (e : RagError).
Arguments normal {A} v.
Arguments throw {A} e.

(** The state a handler leaves behind; a throwing handler has queued
    no update. *)
Definition settle {A} (c : completion A) (before : A) : A :=
  match c with
  | normal v => v
  | throw _ => before
  end.

(** [WhiteSpace] and [LineTerminator] code units below U+0100:
    TAB, LF, VT, FF, CR, SP and NBSP. *)
Definition isWhiteSpace (c : ascii) : bool :=
  let n := nat_of_ascii c in
  ((9 <=? n)%nat && (n <=? 13)%nat) || (n =? 32)%nat || (n =? 160)%nat.

Fixpoint trimStart (s : string) : string :=
  match s with
  | EmptyString => EmptyString
  | String c t => if isWhiteSpace c then trimStart t else s
  end.

Fixpoint trimEnd (s : string) : string :=
  match s with
  | EmptyString => EmptyString
  | String c t =>
      match trimEnd t with
      | EmptyString => if isWhiteSpace c then EmptyString else String c EmptyString
      | t' => String c t'
      end
  end.

(** [String.prototype.trim] *)
Definition trim (s : string) : string := trimEnd (trimStart s).

(** Truthiness of a string value: only the empty string is falsy. *)
Definition truthy (s : string) : bool :=
  match s with EmptyString => false | String _ _ => true end.

(** Default case conversion of one code unit below U+0100: A..Z and
    the upper case letters U+00C0..U+00DE (U+00D7 is the multiplication
    sign) move up by 32. *)
Definition lowerChar (c : ascii) : ascii :=
  let n := nat_of_ascii c in
  if ((65 <=? n)%nat && (n <=? 90)%nat)
     || ((192 <=? n)%nat && (n <=? 222)%nat && negb (n =? 215)%nat)
  then ascii_of_nat (n + 32) else c.

(** [String.prototype.toLowerCase] *)
Fixpoint toLowerCase (s : string) : string :=
  match s with
  | EmptyString => EmptyString
  | String c t => String (lowerChar c) (toLowerCase t)
  end.

(** [String.prototype.includes]: [includes s needle] is [s.includes(needle)]. *)
Fixpoint includes (s needle : string) : bool :=
  String.prefix needle s ||
  match s with
  | EmptyString => false
  | String _ t => includes t needle
  end.

(** [Array.prototype.slice(start, end)] for non-negative integer bounds. *)
Definition slice {A} (start stop : nat) (l : list A) : list A :=
  List.firstn (stop - start) (List.skipn start l).

(** [Number::toString] on the non-negative decimals with at most one
    fractional digit, kept as a number of tenths: [51] is [5.1], [30]
    is [3.0] and prints as ["3"]. *)
Definition numberToString (tenths : N) : string :=
  let q := (tenths / 10)%N in
  let r := (tenths mod 10)%N in
  NilZero.string_of_uint (N.to_uint q) ++
  (if (r =? 0)%N then "" else "." ++ NilZero.string_of_uint (N.to_uint r)).

End JS.

(** ** example.jsx: the table analyst page *)

Module AiTable.

(** A table cell is a number or a string.  Every number of [IRIS] has
    at most one fractional digit and is kept in tenths. *)
Inductive Cell :=
| Num (tenths : N)
| Str (s : string).

(** [String(c)] *)
Definition String_ (c : Cell) : string :=
  match c with
  | Num t => JS.numberToString t
  | Str s => s
  end.

Definition Row := list Cell.

Definition iris (a b c d : N) (v : string) : Row :=
  [Num a; Num b; Num c; Num d; Str v].

Definition IRIS : list Row :=
  [ iris 51 35 14 2 "Setosa"; iris 49 30 14 2 "Setosa";
    iris 47 32 13 2 "Setosa"; iris 46 31 15 2 "Setosa";
    iris 50 36 14 2 "Setosa"; iris 54 39 17 4 "Setosa";
    iris 46 34 14 3 "Setosa"; iris 50 34 15 2 "Setosa";
    iris 44 29 14 2 "Setosa"; iris 49 31 15 1 "Setosa";
    iris 63 33 60 25 "Virginica"; iris 58 27 51 19 "Virginica";
    iris 71 30 59 21 "Virginica"; iris 63 29 56 18 "Virginica";
    iris 57 25 50 20 "Versicolor"; iris 58 28 51 24 "Versicolor";
    iris 64 32 53 23 "Versicolor"; iris 65 30 55 18 "Versicolor" ].

Record Table := mkTable { id : string; label : string; sheets : list string }.

Definition TABLES0 : list Table :=
  [ mkTable "iris_3" "irisgood_3" ["Sheet1"];
    mkTable "sales_q1" "sales_Q1.xlsx" ["Jan"; "Feb"; "Mar"];
    mkTable "inventory" "inventory_2024.xlsx" ["Electronics"; "Clothing"] ].

Record Msg := mkMsg { role : string; text : string }.

Definition CHAT_MSGS : list Msg :=
  [ mkMsg "assistant" "Hi! I'm your AI analyst. Ask me anything about this dataset.";
    mkMsg "user" "What's the average sepal length?";
    mkMsg "assistant" "The average sepal length across all 150 rows is **5.84 cm**. Virginica has the highest average at 6.59 cm, while Setosa has the lowest at 5.01 cm." ].

(** The reply of the demo timer.  (Its ellipsis is U+2026, outside the
    modelled range; the literal keeps its UTF-8 bytes.) *)
Definition demoReply : Msg :=
  mkMsg "assistant" "Great question! Let me analyze that for you… (demo mode)".

(** The component state.  [TABLES] is the module-level array, which the
    import handler extends with [push]; [activeSheet] is [None] when
    [t.sheets[0]] is [undefined]; [panel] is [None] for [null];
    [timers] counts the pending [setTimeout] callbacks of [sendMsg]. *)
Record State := mkState {
  TABLES : list Table;
  activeTable : Table;
  activeSheet : option string;
  panel : option string;
  tableDropOpen : bool;
  sheetDropOpen : bool;
  search : string;
  chatInput : string;
  messages : list Msg;
  timers : nat
}.

Definition table0 : Table := mkTable "iris_3" "irisgood_3" ["Sheet1"].

(** [useState] initial values: [TABLES[0]], [TABLES[0].sheets[0]], ... *)
Definition init : State :=
  {| TABLES := TABLES0;
     activeTable := nth 0 TABLES0 table0;
     activeSheet := nth_error (sheets (nth 0 TABLES0 table0)) 0;
     panel := None;
     tableDropOpen := false;
     sheetDropOpen := false;
     search := "";
     chatInput := "";
     messages := CHAT_MSGS;
     timers := 0 |}.

(** [r.some(c => String(c).toLowerCase().includes(search.toLowerCase()))] *)
Definition rowMatches (search : string) (r : Row) : bool :=
  existsb (fun c => JS.includes (JS.toLowerCase (String_ c)) (JS.toLowerCase search)) r.

(** [const filtered = IRIS.filter(...)] *)
Definition filtered (search : string) : list Row :=
  List.filter (rowMatches search) IRIS.

Definition switchTable (t : Table) (s : State) : State :=
  {| TABLES := TABLES s;
     activeTable := t;
     activeSheet := nth_error (sheets t) 0;
     panel := panel s;
     tableDropOpen := false;
     sheetDropOpen := false;
     search := search s;
     chatInput := chatInput s;
     messages := messages s;
     timers := timers s |}.

Definition setPanel (v : option string) (s : State) : State :=
  {| TABLES := TABLES s; activeTable := activeTable s; activeSheet := activeSheet s;
     panel := v;
     tableDropOpen := tableDropOpen s; sheetDropOpen := sheetDropOpen s;
     search := search s; chatInput := chatInput s;
     messages := messages s; timers := timers s |}.

(** [setPanel(prev => prev === p ? null : p)] *)
Definition togglePanel (p : string) (s : State) : State :=
  setPanel (match panel s with
            | Some prev => if String.eqb prev p then None else Some p
            | None => Some p
            end) s.

(** The three state updates of [sendMsg] past its guard: the user
    message is appended, the input cleared and the reply timer set. *)
Definition posted (s : State) : State :=
  {| TABLES := TABLES s; activeTable := activeTable s; activeSheet := activeSheet s;
     panel := panel s;
     tableDropOpen := tableDropOpen s; sheetDropOpen := sheetDropOpen s;
     search := search s;
     chatInput := "";
     messages := messages s ++ [mkMsg "user" (chatInput s)];
     timers := S (timers s) |}.

(** [sendMsg]: [if (!chatInput.trim()) return;] then the updates.
    Neither branch throws. *)
Definition sendMsg (s : State) : JS.completion State :=
  if negb (JS.truthy (JS.trim (chatInput s))) then JS.normal s
  else JS.normal (posted s).

(** The callback given to [setTimeout]: append the demo reply. *)
Definition replyTimer (s : State) : State :=
  match timers s with
  | O => s
  | S n =>
      {| TABLES := TABLES s; activeTable := activeTable s; activeSheet := activeSheet s;
         panel := panel s;
         tableDropOpen := tableDropOpen s; sheetDropOpen := sheetDropOpen s;
         search := search s; chatInput := chatInput s;
         messages := messages s ++ [demoReply];
         timers := n |}
  end.

Definition setDrops (t sh : bool) (s : State) : State :=
  {| TABLES := TABLES s; activeTable := activeTable s; activeSheet := activeSheet s;
     panel := panel s;
     tableDropOpen := t; sheetDropOpen := sh;
     search := search s; chatInput := chatInput s;
     messages := messages s; timers := timers s |}.

Definition setActiveSheet (v : string) (s : State) : State :=
  {| TABLES := TABLES s; activeTable := activeTable s; activeSheet := Some v;
     panel := panel s;
     tableDropOpen := tableDropOpen s; sheetDropOpen := false;
     search := search s; chatInput := chatInput s;
     messages := messages s; timers := timers s |}.

Definition setSearch (v : string) (s : State) : State :=
  {| TABLES := TABLES s; activeTable := activeTable s; activeSheet := activeSheet s;
     panel := panel s;
     tableDropOpen := tableDropOpen s; sheetDropOpen := sheetDropOpen s;
     search := v; chatInput := chatInput s;
     messages := messages s; timers := timers s |}.

Definition setChatInput (v : string) (s : State) : State :=
  {| TABLES := TABLES s; activeTable := activeTable s; activeSheet := activeSheet s;
     panel := panel s;
     tableDropOpen := tableDropOpen s; sheetDropOpen := sheetDropOpen s;
     search := search s; chatInput := v;
     messages := messages s; timers := timers s |}.

(** The file input's [onChange]: no file, no effect; otherwise a one
    sheet table named after the file is pushed and made active. *)
Definition importFile (file : option string) (s : State) : State :=
  match file with
  | None => s
  | Some name =>
      let newTable := mkTable name name ["Sheet1"] in
      switchTable newTable
        {| TABLES := TABLES s ++ [newTable];
           activeTable := activeTable s; activeSheet := activeSheet s;
           panel := panel s;
           tableDropOpen := tableDropOpen s; sheetDropOpen := sheetDropOpen s;
           search := search s; chatInput := chatInput s;
           messages := messages s; timers := timers s |}
  end.

(** What the user (or the timer queue) can do to the page. *)
Inductive Event :=
| ClickTablePill
| ClickTableItem (i : nat)
| ClickSheetPill
| ClickSheetItem (i : nat)
| ImportFile (file : option string)
| ClickChatToggle
| ClickStatsToggle
| ClickPanelClose
| ClickLayout
| TypeSearch (v : string)
| TypeChat (v : string)
| PressEnterChat
| ClickChatSend
| TimerFires.

Definition chatOpen (s : State) : bool :=
  match panel s with Some p => String.eqb p "chat" | None => false end.

Definition panelOpen (s : State) : bool :=
  match panel s with
  | Some p => String.eqb p "chat" || String.eqb p "stats"
  | None => false
  end.

Definition multiSheet (s : State) : bool :=
  (1 <? List.length (sheets (activeTable s)))%nat.

(** [onClick] of the layout: close whichever drop-down is open. *)
Definition clickLayout (s : State) : State :=
  setDrops (if tableDropOpen s then false else tableDropOpen s)
           (if sheetDropOpen s then false else sheetDropOpen s) s.

(** One event, through the handler the JSX attaches to the element; an
    element that is not rendered in [s] receives no event, and a click
    inside the layout bubbles to the layout's own handler. *)
Definition step (e : Event) (s : State) : State :=
  match e with
  | ClickTablePill => setDrops (negb (tableDropOpen s)) false s
  | ClickTableItem i =>
      if tableDropOpen s then
        match nth_error (TABLES s) i with
        | Some t => switchTable t s
        | None => s
        end
      else s
  | ClickSheetPill =>
      if multiSheet s then setDrops false (negb (sheetDropOpen s)) s else s
  | ClickSheetItem i =>
      if multiSheet s && sheetDropOpen s then
        match nth_error (sheets (activeTable s)) i with
        | Some sh => setActiveSheet sh s
        | None => s
        end
      else s
  | ImportFile f => importFile f s
  | ClickChatToggle => togglePanel "chat" s
  | ClickStatsToggle => togglePanel "stats" s
  | ClickPanelClose => if panelOpen s then clickLayout (setPanel None s) else s
  | ClickLayout => clickLayout s
  | TypeSearch v => setSearch v s
  | TypeChat v => if chatOpen s then setChatInput v s else s
  | PressEnterChat => if chatOpen s then JS.settle (sendMsg s) s else s
  | ClickChatSend => if chatOpen s then clickLayout (JS.settle (sendMsg s) s) else s
  | TimerFires => replyTimer s
  end.

Definition run (es : list Event) (s : State) : State :=
  fold_left (fun st e => step e st) es s.

(** The states the page can be in. *)
Definition reachable (s : State) : Prop := exists es, s = run es init.

(** [panel] holds one of the three values of its comment. *)
Definition panelValid (s : State) : Prop :=
  panel s = None \/ panel s = Some "chat" \/ panel s = Some "stats".

(** The active sheet is a sheet of the active table. *)
Definition sheetOfActive (s : State) : Prop :=
  exists sh, activeSheet s = Some sh /\ In sh (sheets (activeTable s)).

(** Every known table has a sheet, and so has the active one. *)
Definition selectionValid (s : State) : Prop :=
  Forall (fun t => sheets t <> []) (TABLES s) /\ sheetOfActive s.

End AiTable.

(** ** rag_example.jsx: the document chat page *)

Module RagChat.

Record Source := mkSource {
  id : Z;
  name : string;
  pages : string;
  relevance : Z
}.

Definition MOCK_SOURCES : list Source :=
  [ mkSource 1 "22718743.pdf" "p. 12-14" 94;
    mkSource 2 "22291054.pdf" "p. 3-5" 87;
    mkSource 3 "20819283.pdf" "p. 21" 76;
    mkSource 4 "22291053.pdf" "p. 8-9" 71;
    mkSource 5 "22291061.pdf" "p. 1-2" 65 ].

(** A message; [sources] is [None] when the property is absent. *)
Record Message := mkMessage {
  role : string;
  content : string;
  sources : option (list Source)
}.

Definition MOCK_MESSAGES : list Message :=
  [ mkMessage "user" "What is chromatography?" None;
    mkMessage "assistant" "Chromatography is a laboratory technique used for the separation of mixtures into their individual components based on differences in how they interact with a stationary phase and a mobile phase.

In chromatography, the mixture to be separated is dissolved in a fluid (the mobile phase), which carries it through a structure holding another material (the stationary phase). The various components of the mixture move at different speeds, causing them to separate as they flow through or over the stationary phase.

There are several types of chromatography, including high-performance liquid chromatography (HPLC), gas chromatography (GC), ion chromatography, and capillary electrophoresis. Each type uses different mechanisms and phases but relies on the same fundamental principle of differential partitioning between phases to achieve separation." (Some MOCK_SOURCES) ].

Definition SUGGESTED_QUESTIONS : list string :=
  [ "Are there separation methods for ethyl sulfate?";
    "What analytical techniques detect trace impurities?";
    "Compare HPLC and GC for volatile compounds";
    "What sample preparation is needed for ion chromatography?" ].

(** The palette entries [RelevanceBadge] uses. *)
Module C.
Definition accent2 := "#e9f8f5".
Definition accent9 := "#1d907d".
Definition sec1 := "#f9f8fd".
Definition sec9 := "#877bb8".
Definition tert3 := "#ffd4ec".
Definition tert9 := "#a63b77".
End C.

Record Badge := mkBadge { color : string; bg : string; shown : string }.

(** [RelevanceBadge({ value })]: the two colours by threshold and the
    text [{value}%]. *)
Definition RelevanceBadge (value : Z) : Badge :=
  {| color := if (85 <=? value)%Z then C.accent9
              else if (70 <=? value)%Z then C.sec9 else C.tert9;
     bg := if (85 <=? value)%Z then C.accent2
           else if (70 <=? value)%Z then C.sec1 else C.tert3 ++ "55";
     shown := NilZero.string_of_int (Z.to_int value) ++ "%" |}.

(** The component state; [timers] counts the pending reply callbacks
    of [handleSend].  (The 50 ms timer of [handleSuggest] only focuses
    the text area, which is the event [Focus] below.) *)
Record State := mkState {
  messages : list Message;
  input : string;
  showEmpty : bool;
  inputFocused : bool;
  timers : nat
}.

Definition init : State :=
  {| messages := MOCK_MESSAGES; input := ""; showEmpty := false;
     inputFocused := false; timers := 0 |}.

(** The message the reply timer appends. *)
Definition assistantReply : Message :=
  mkMessage "assistant" "Based on the documents in your knowledge base, I found several relevant passages addressing your question. Let me synthesize the key findings for you.

The available literature describes multiple analytical approaches that have been validated for this type of analysis. The most commonly referenced methods involve chromatographic separation followed by mass spectrometric detection." (Some (JS.slice 0 3 MOCK_SOURCES)).

(** The updates of [handleSend] past its guard. *)
Definition posted (s : State) : State :=
  {| messages := messages s ++ [mkMessage "user" (JS.trim (input s)) None];
     input := "";
     showEmpty := false;
     inputFocused := inputFocused s;
     timers := S (timers s) |}.

(** [handleSend]: [if (!input.trim()) return;] then the updates.
    Neither branch throws. *)
Definition handleSend (s : State) : JS.completion State :=
  if negb (JS.truthy (JS.trim (input s))) then JS.normal s
  else JS.normal (posted s).

(** The callback given to [setTimeout(..., 1200)]. *)
Definition replyTimer (s : State) : State :=
  match timers s with
  | O => s
  | S n =>
      {| messages := messages s ++ [assistantReply];
         input := input s; showEmpty := showEmpty s;
         inputFocused := inputFocused s;
         timers := n |}
  end.

Definition handleSuggest (text : string) (s : State) : State :=
  {| messages := messages s; input := text; showEmpty := false;
     inputFocused := inputFocused s; timers := timers s |}.

Definition handleNewChat (s : State) : State :=
  {| messages := []; input := input s; showEmpty := true;
     inputFocused := inputFocused s; timers := timers s |}.

Definition setInput (v : string) (s : State) : State :=
  {| messages := messages s; input := v; showEmpty := showEmpty s;
     inputFocused := inputFocused s; timers := timers s |}.

Definition setInputFocused (b : bool) (s : State) : State :=
  {| messages := messages s; input := input s; showEmpty := showEmpty s;
     inputFocused := b; timers := timers s |}.

Inductive Event :=
| Type_ (v : string)
| Focus
| Blur
| PressEnter
| ClickSend
| ClickSuggestion (i : nat)
| ClickNewChat
| TimerFires.

(** [messages.length === 0 || showEmpty]: the empty state with the
    suggestions is shown. *)
Definition emptyShown (s : State) : bool :=
  (List.length (messages s) =? 0)%nat || showEmpty s.

(** One event through its handler.  The send button is [disabled]
    while the trimmed input is empty; the Enter key is not. *)
Definition step (e : Event) (s : State) : State :=
  match e with
  | Type_ v => setInput v s
  | Focus => setInputFocused true s
  | Blur => setInputFocused false s
  | PressEnter => JS.settle (handleSend s) s
  | ClickSend =>
      if JS.truthy (JS.trim (input s)) then JS.settle (handleSend s) s else s
  | ClickSuggestion i =>
      if emptyShown s then
        match nth_error SUGGESTED_QUESTIONS i with
        | Some q => handleSuggest q s
        | None => s
        end
      else s
  | ClickNewChat => handleNewChat s
  | TimerFires => replyTimer s
  end.

Definition run (es : list Event) (s : State) : State :=
  fold_left (fun st e => step e st) es s.

Definition reachable (s : State) : Prop := exists es, s = run es init.

(** The source lists the page attaches to a message: none, all of
    [MOCK_SOURCES], or its first three. *)
Definition sourcesKnown (m : Message) : Prop :=
  sources m = None \/ sources m = Some MOCK_SOURCES \/
  sources m = Some (JS.slice 0 3 MOCK_SOURCES).

(** A send that passes the guard of [handleSend]. *)
Definition sendsNow (e : Event) (s : State) : bool :=
  match e with
  | PressEnter | ClickSend => JS.truthy (JS.trim (input s))
  | _ => false
  end.

(** A reply callback that runs. *)
Definition repliesNow (e : Event) (s : State) : bool :=
  match e with
  | TimerFires => (0 <? timers s)%nat
  | _ => false
  end.

(** How often [p] holds along the run of [es] from [s]. *)
Fixpoint occurrences (p : Event -> State -> bool) (es : list Event) (s : State) : nat :=
  match es with
  | [] => 0
  | e :: es' => (if p e s then 1 else 0) + occurrences p es' (step e s)
  end.

End RagChat.

(** ** The document store behind the service interface *)

Module RagService.

Inductive Status := pending | indexing | indexed | failed.

Record Document := mkDocument {
  identifier : string;
  displayName : string;
  status : Status;
  byteSize : N;
  created : N;
  updated : N;
  metadata : gmap string string
}.

(** Modelled from the spec: [deleteDocument(documentId)] on the
    documents of a backend, keyed by identifier (the Python service
    classes are not among the sources).  It removes the document; on an
    absent identifier it fails with [NotFound] only in strict mode and
    otherwise succeeds silently. *)
Definition deleteDocument (strict : bool) (documentId : string)
    (docs : gmap string Document) : RagError + gmap string Document :=
  match docs !! documentId with
  | Some _ => inr (delete documentId docs)
  | None => if strict then inl NotFound else inr docs
  end.

End RagService.

(** ** Retrieval through the service interface *)

Module RagRetrieval.

(** Modelled from the spec: the retrieval methods of the interface. *)
Inductive RetrievalMethod := semantic | keyword | hybrid | fullText.

Definition method_eqb (a b : RetrievalMethod) : bool :=
  match a, b with
  | semantic, semantic | keyword, keyword | hybrid, hybrid | fullText, fullText => true
  | _, _ => false
  end.

(** Modelled from the spec: the shared chunk type; the relevance score
    is the rescaled one. *)
Record Chunk := mkChunk {
  chunkId : string;
  owner : string;
  chunkText : string;
  score : QArith_base.Q;
  position : string;
  obtainedBy : RetrievalMethod
}.

(** Modelled from the spec: a backend adapter as the interface sees it
    (the two Python adapters are not among the sources).  It advertises
    the retrieval methods it supports, and [hits kb query method] is its
    answer to a search, already mapped into the shared chunk type, in
    whatever order the backend gives it. *)
Record Adapter := mkAdapter {
  supportedMethods : list RetrievalMethod;
  hits : string -> string -> RetrievalMethod -> list Chunk
}.

(** [c] goes in front of the first chunk that does not score higher. *)
Fixpoint insertByScore (c : Chunk) (l : list Chunk) : list Chunk :=
  match l with
  | [] => [c]
  | d :: rest =>
      if QArith_base.Qle_bool (score d) (score c) then c :: l
      else d :: insertByScore c rest
  end.

(** The chunks by descending relevance score. *)
Definition rankDescending (l : list Chunk) : list Chunk :=
  fold_right insertByScore [] l.

(** Modelled from the spec: [retrieveChunks(knowledgeBaseId, query,
    method, topK)].  [topK] must be at least 1; a method the active
    backend does not advertise fails with [UnsupportedMethod]; the
    result is sorted by descending relevance score and [topK] bounds
    its length. *)
Definition retrieveChunks (a : Adapter) (knowledgeBaseId query : string)
    (method : RetrievalMethod) (topK : nat) : RagError + list Chunk :=
  if (topK =? 0)%nat then inl InvalidInput
  else if negb (existsb (method_eqb method) (supportedMethods a)) then inl UnsupportedMethod
  else inr (List.firstn topK (rankDescending (hits a knowledgeBaseId query method))).

(** Every chunk scores at least as high as every chunk after it. *)
Definition descendingScores (l : list Chunk) : Prop :=
  StronglySorted (fun c d => QArith_base.Qle (score d) (score c)) l.

(** The fixture of the spec's retrieval scenario: five indexed chunks
    about chromatography, reported by the backend in no useful order. *)
Definition chromatographyHits : list Chunk :=
  [ mkChunk "c1" "22291054.pdf" "Ion chromatography separates ions." (QArith_base.Qmake 71 100) "p. 3" semantic;
    mkChunk "c2" "22718743.pdf" "Chromatography separates mixtures." (QArith_base.Qmake 94 100) "p. 12" semantic;
    mkChunk "c3" "20819283.pdf" "Gas chromatography uses a gas phase." (QArith_base.Qmake 65 100) "p. 21" semantic;
    mkChunk "c4" "22291053.pdf" "HPLC is liquid chromatography." (QArith_base.Qmake 87 100) "p. 8" semantic;
    mkChunk "c5" "22291061.pdf" "Chromatography needs two phases." (QArith_base.Qmake 76 100) "p. 1" semantic ].

Definition fixtureAdapter : Adapter :=
  mkAdapter [semantic; keyword] (fun _ _ _ => chromatographyHits).

End RagRetrieval.

(** ** The streaming chat turn *)

Module RagStream.

(** Modelled from the spec: the chat stream response fragment, with
    its kind, its payload and its sequence index. *)
Inductive FragmentKind := token | citation | error | done.

Inductive Payload :=
| Text (text : string)
| ChunkRefs (chunks : list string)
| ErrorText (description : string)
| NoPayload.

Record Fragment := mkFragment {
  kind : FragmentKind;
  payload : Payload;
  sequence : nat
}.

(** Modelled from the spec: what the adapter's transport hands over
    during one turn: a piece of the answer, citations, an event of no interest to the caller, the
    end of the answer, or a failure (an error payload or a transport
    error). *)
Inductive NativeEvent :=
| Answer (text : string)
| Cited (chunks : list string)
| KeepAlive
| Finished
| Broken (description : string).

(** Modelled from the spec: [toSharedFragment(nativeStreamEvent)], with
    [None] for "no caller-visible effect, drop"; the fragment gets the
    sequence index it is handed. *)
Definition toSharedFragment (ev : NativeEvent) (index : nat) : option Fragment :=
  match ev with
  | Answer t => Some (mkFragment token (Text t) index)
  | Cited cs => Some (mkFragment citation (ChunkRefs cs) index)
  | KeepAlive => None
  | Finished => Some (mkFragment done NoPayload index)
  | Broken d => Some (mkFragment error (ErrorText d) index)
  end.

(** Modelled from the spec: the states of the coordinator. *)
Inductive Phase := Idle | Streaming | Completed | Failed | Cancelled.

(** Modelled from the spec: one conversation turn: its phase, the next sequence index and the
    fragments handed to the caller so far. *)
Record Turn := mkTurn {
  phase : Phase;
  nextSequence : nat;
  delivered : list Fragment
}.

(** Modelled from the spec: [chatStream] has been called, [Idle] to
    [Streaming], with sequence index 0. *)
Definition begin : Turn := mkTurn Streaming 0 [].

(** Modelled from the spec: the streaming chat coordinator on one
    native event (the Python coordinator is not among the sources).
    While streaming, the fragment of the event, if any, is handed on
    with the next index; [done] completes the turn and [error] fails
    it.  Outside [Streaming] nothing is emitted. *)
Definition deliver (ev : NativeEvent) (t : Turn) : Turn :=
  match phase t with
  | Streaming =>
      match toSharedFragment ev (nextSequence t) with
      | None => t
      | Some f =>
          mkTurn (match kind f with
                  | done => Completed
                  | error => Failed
                  | _ => Streaming
                  end)
                 (S (nextSequence t))
                 (delivered t ++ [f])
      end
  | _ => t
  end.

(** Modelled from the spec: the caller abandons the stream; a turn that
    is still streaming becomes [Cancelled] and emits nothing more. *)
Definition cancel (t : Turn) : Turn :=
  match phase t with
  | Streaming => mkTurn Cancelled (nextSequence t) (delivered t)
  | _ => t
  end.

Inductive Input :=
| FromBackend (ev : NativeEvent)
| CallerCancels.

Definition advance (t : Turn) (i : Input) : Turn :=
  match i with
  | FromBackend ev => deliver ev t
  | CallerCancels => cancel t
  end.

(** Modelled from the spec: the turn after the given inputs, from the
    call of [chatStream]. *)
Definition chatStream (inputs : list Input) : Turn :=
  fold_left advance inputs begin.





End RagStream.

(** ** Uploading a document *)

Module RagUpload.

Import RagService.






End RagUpload.

(** ** More of the two pages: key handlers, views and counters *)

Module JSText.

(** [s.slice(0, n)] on a string, for a non-negative integer [n]: the
    first [n] code units, or all of [s] when it is shorter. *)
Fixpoint sliceTo (n : nat) (s : string) : string :=
  match n, s with
  | S n', String c t => String c (sliceTo n' t)
  | _, _ => EmptyString
  end.

(** The string has a code unit that [trim] does not remove. *)
Definition hasInk (s : string) : Prop :=
  exists c, In c (list_ascii_of_string s) /\ JS.isWhiteSpace c = false.

(** No white space at either end. *)
Definition trimmed (s : string) : Prop := JS.trim s = s.

(** Every code unit is white space. *)
Definition allWhite (s : string) : bool :=
  forallb JS.isWhiteSpace (list_ascii_of_string s).

(** The first code unit, if any, is not white space. *)
Definition inkFirst (s : string) : bool :=
  match s with
  | EmptyString => true
  | String c _ => negb (JS.isWhiteSpace c)
  end.

End JSText.

Module AiTableChat.

Import AiTable.

(** [onKeyDown] of the chat text area:
    [if (e.key === "Enter" && !e.shiftKey) { e.preventDefault(); sendMsg(); }] *)
Definition onKeyDown (key : string) (shiftKey : bool) (s : State) : State :=
  if String.eqb key "Enter" && negb shiftKey then JS.settle (sendMsg s) s else s.

(** A send that reaches [sendMsg] and passes its guard. *)
Definition sendsNow (e : Event) (s : State) : bool :=
  match e with
  | PressEnterChat | ClickChatSend => chatOpen s && JS.truthy (JS.trim (chatInput s))
  | _ => false
  end.

(** A reply callback that runs. *)
Definition repliesNow (e : Event) (s : State) : bool :=
  match e with
  | TimerFires => (0 <? timers s)%nat
  | _ => false
  end.

(** A file was chosen in the import dialog. *)
Definition importsNow (e : Event) (s : State) : bool :=
  match e with
  | ImportFile (Some _) => true
  | _ => false
  end.

(** How often [p] holds along the run of [es] from [s]. *)
Fixpoint occurrences (p : Event -> State -> bool) (es : list Event) (s : State) : nat :=
  match es with
  | [] => 0
  | e :: es' => (if p e s then 1 else 0) + occurrences p es' (step e s)
  end.

(** At most one drop-down is open, and the sheet drop-down only for a
    table with several sheets. *)
Definition dropsValid (s : State) : Prop :=
  (tableDropOpen s = true -> sheetDropOpen s = false) /\
  (sheetDropOpen s = true -> multiSheet s = true).

(** The built-in tables head the list and the active table is listed. *)
Definition tablesValid (s : State) : Prop :=
  (exists added, TABLES s = TABLES0 ++ added) /\ In (activeTable s) (TABLES s).

(** A message of the chat panel: from the assistant, or from the user
    with something other than white space in it. *)
Definition msgValid (m : Msg) : Prop :=
  role m = "assistant" \/ (role m = "user" /\ JSText.hasInk (text m)).

End AiTableChat.

Module RagChatView.

Import RagChat.

(** [onKeyDown] of the question text area:
    [if (e.key === "Enter" && !e.shiftKey) { e.preventDefault(); handleSend(); }] *)
Definition onKeyDown (key : string) (shiftKey : bool) (s : State) : State :=
  if String.eqb key "Enter" && negb shiftKey then JS.settle (handleSend s) s else s.

(** [MessageBubble]: [const isUser = msg.role === "user"]. *)
Definition isUser (m : Message) : bool := String.eqb (role m) "user".

(** [MessageBubble]: [msg.sources && <SourcesPanel ... />]; an array,
    even an empty one, is truthy. *)
Definition showsSources (m : Message) : bool :=
  match sources m with
  | Some _ => true
  | None => false
  end.

(** [SourcesPanel]: the number in front of "Sources Referenced". *)
Definition sourcesCount (m : Message) : option nat :=
  option_map (@List.length Source) (sources m).

(** The title of the top bar:
    [messages.length > 0
       ? messages[0].content.slice(0, 50) + (messages[0].content.length > 50 ? "..." : "")
       : "New Chat"] *)
Definition title (s : State) : string :=
  match messages s with
  | [] => "New Chat"
  | m :: _ =>
      JSText.sliceTo 50 (content m) ++
      (if (50 <? String.length (content m))%nat then "..." else "")
  end.

Record CardColor := mkCardColor { cardBg : string; cardIcon : string }.

(** [SourceCard]: its three colour pairs ([C.accent2]/[C.accent9],
    [C.sec3]/[C.sec11], [C.tert3]/[C.tert9]) and [colors[index % 3]];
    [None] stands for [undefined]. *)
Definition colors : list CardColor :=
  [ mkCardColor C.accent2 C.accent9;
    mkCardColor "#eeebfa" "#584a90";
    mkCardColor C.tert3 C.tert9 ].

Definition cardColor (index : nat) : option CardColor :=
  nth_error colors (index mod 3).

(** A message of the conversation: from the user, without sources and
    with a non-empty trimmed text, or from the assistant with all five
    mock sources or the first three. *)
Definition messageValid (m : Message) : Prop :=
  (role m = "user" /\ sources m = None /\
   content m <> "" /\ JSText.trimmed (content m)) \/
  (role m = "assistant" /\
   exists srcs, sources m = Some srcs /\
                (List.length srcs = 3 \/ List.length srcs = 5)%nat).

End RagChatView.

(** ** kill_port_processes.sh *)

Module KillPort.

(** What the script does to its surroundings, in order: a line on
    standard output, a call of [lsof -ti:PORT], a call of [kill -9 PID]. *)
Inductive Action :=
| Echo (line : string)
| Query (port : string)
| Kill (pid : string).

Definition isDigit (c : ascii) : bool :=
  let n := nat_of_ascii c in (48 <=? n)%nat && (n <=? 57)%nat.

(** [[[ $PORT =~ ^[0-9]+$ ]]] *)
Definition isNumber (port : string) : bool :=
  match port with
  | EmptyString => false
  | _ => forallb isDigit (list_ascii_of_string port)
  end.

Definition newline : string := String (ascii_of_nat 10) EmptyString.

Section Script.

(** The machine the script runs on.  [lsof port sys] is the list of
    pids that [lsof -ti:port] prints, one per line; [kill9 pid sys] is
    the machine after [kill -9 pid]; [script] is [$0]. *)
Variable Sys : Type.
Variable lsof : string -> Sys -> list string.
Variable kill9 : string -> Sys -> Sys.
Variable script : string.

Definition usage : Action :=
  Echo ("Usage: " ++ script ++ " <port_number> [<port_number> ...]").

(** [for PID in $PIDS; do kill -9 $PID; echo ...; done] *)
Fixpoint killEach (pids : list string) (sys : Sys) : list Action * Sys :=
  match pids with
  | [] => ([], sys)
  | pid :: rest =>
      let '(acts, sys') := killEach rest (kill9 pid sys) in
      (Kill pid :: Echo ("Killed process with PID: " ++ pid) :: acts, sys')
  end.

(** One round of the outer loop. *)
Definition forPort (port : string) (sys : Sys) : list Action * Sys :=
  if negb (isNumber port) then
    ([Echo ("Error: Port '" ++ port ++ "' must be a number"); usage], sys)
  else
    match lsof port sys with
    | [] =>
        ([Echo ("Looking for processes using port " ++ port ++ "...");
          Query port;
          Echo ("No processes found using port " ++ port)], sys)
    | pids =>
        let '(acts, sys') := killEach pids sys in
        ([Echo ("Looking for processes using port " ++ port ++ "...");
          Query port;
          Echo ("Found processes: " ++ String.concat newline pids);
          Echo "Killing processes..."]
         ++ acts ++
         [Echo ("All processes using port " ++ port ++ " have been terminated");
          Echo "----------------------------------------"], sys')
    end.

(** [for PORT in "$@"; do ... done] *)
Fixpoint forPorts (ports : list string) (sys : Sys) : list Action * Sys :=
  match ports with
  | [] => ([], sys)
  | port :: rest =>
      let '(acts, sys1) := forPort port sys in
      let '(acts', sys2) := forPorts rest sys1 in
      (acts ++ acts', sys2)
  end.

(** The script on its arguments: what it did, the machine it leaves
    and its exit status. *)
Definition main (args : list string) (sys : Sys) : list Action * Sys * Z :=
  match args with
  | [] => ([Echo "Error: At least one port number is required"; usage], sys, 1%Z)
  | _ => let '(acts, sys') := forPorts args sys in (acts, sys', 0%Z)
  end.

End Script.

(** The calls of [lsof] and [kill] among the actions. *)
Definition effects (acts : list Action) : list Action :=
  List.filter (fun a => match a with Echo _ => false | _ => true end) acts.

(** A small machine to run the script on: the live processes, each a
    pid with the ports it holds. *)
Definition Machine := list (string * list string).

Definition machineLsof (port : string) (m : Machine) : list string :=
  List.map fst (List.filter (fun p => existsb (String.eqb port) (snd p)) m).

Definition machineKill (pid : string) (m : Machine) : Machine :=
  List.filter (fun p => negb (String.eqb pid (fst p))) m.

Definition demoMachine : Machine :=
  [("101", ["8511"; "8512"]); ("102", ["8511"]); ("103", ["9000"])].

End KillPort.

(** ** Notions the statements below are phrased in *)

Module Spec.

(** [needle] occurs in [s] as a contiguous run of code units. *)
Definition contains (s needle : string) : Prop :=
  exists pre post, s = (pre ++ needle ++ post)%string.

(** A row is selected by a search string when at least one of its
    cells, as a string, contains the search string up to case. *)
Definition rowSelected (search : string) (r : AiTable.Row) : Prop :=
  exists c, In c r /\
    contains (JS.toLowerCase (AiTable.String_ c)) (JS.toLowerCase search).

(** [selection P l l']: [l'] is [l] with exactly the elements that
    satisfy [P] kept, in their original order. *)
Inductive selection {A} (P : A -> Prop) : list A -> list A -> Prop :=
| selection_nil : selection P [] []
| selection_keep x l l' : P x -> selection P l l' -> selection P (x :: l) (x :: l')
| selection_drop x l l' : ~ P x -> selection P l l' -> selection P (x :: l) l'.

(** Relevance never increases along the list. *)
Definition descending (l : list RagChat.Source) : Prop :=
  forall i j a b, (i <= j)%nat ->
    nth_error l i = Some a -> nth_error l j = Some b ->
    (RagChat.relevance b <= RagChat.relevance a)%Z.

(** [l] is kept as the front of [l']. *)
Definition extends {A} (l l' : list A) : Prop := exists k, l' = l ++ k.

End Spec.

(** * Properties *)

(** ** Sanity checks of the primitives on concrete values *)

Example trim_ex : JS.trim "  a b	 " = "a b".
Proof. reflexivity. Qed.

Example lower_ex : JS.toLowerCase "SeTosa 5.1" = "setosa 5.1".
Proof. reflexivity. Qed.

Example includes_ex :
JS.includes "setosa" "tos" = true /\ JS.includes "setosa" "x" = false
/\ JS.includes "" "" = true.
Proof. repeat split; reflexivity. Qed.

Example num_ex :
JS.numberToString 51 = "5.1" /\ JS.numberToString 30 = "3"
/\ JS.numberToString 1 = "0.1" /\ JS.numberToString 0 = "0".
Proof. repeat split; reflexivity. Qed.

Example badge_ex :
RagChat.RelevanceBadge 94 = RagChat.mkBadge "#1d907d" "#e9f8f5" "94%" /\
RagChat.RelevanceBadge 71 = RagChat.mkBadge "#877bb8" "#f9f8fd" "71%" /\
RagChat.RelevanceBadge 65 = RagChat.mkBadge "#a63b77" "#ffd4ec55" "65%".
Proof. repeat split; reflexivity. Qed.

(** ** Substring search *)

Section Includes.

Lemma prefix_app (n h : string) :
  String.prefix n h = true <-> exists post, h = (n ++ post)%string.
Proof.
  revert h; induction n as [|a n IH]; intros h.
  - split; [intros _; now exists h | intros _; now destruct h].
  - destruct h as [|b h]; simpl.
    + split; [discriminate | intros [post H]; discriminate].
    + destruct (Ascii.ascii_dec a b) as [->|Hne].
      * rewrite IH. split; intros [post H]; exists post.
        -- now rewrite H.
        -- now injection H.
      * split; [discriminate | intros [post H]; injection H; congruence].
Qed.

Lemma includes_contains (h n : string) :
  JS.includes h n = true <-> Spec.contains h n.
Proof.
  unfold Spec.contains.
  induction h as [|b h IH]; cbn [JS.includes].
  - rewrite orb_false_r, prefix_app. split.
    + intros [post H]. now exists "", post.
    + intros [[|c pre] [post H]]; [now exists post | discriminate].
  - rewrite orb_true_iff, prefix_app, IH. split.
    + intros [[post H] | [pre [post H]]].
      * now exists "", post.
      * exists (String b pre), post. simpl. now rewrite H.
    + intros [[|c pre] [post H]].
      * left. now exists post.
      * right. simpl in H. injection H as _ H. now exists pre, post.
Qed.

Lemma includes_empty (h : string) : JS.includes h "" = true.
Proof. destruct h; reflexivity. Qed.

End Includes.

(** ** The table analyst page *)

Section AiTableFacts.

Import AiTable.

(** An invariant of [step] that holds initially holds in every
    reachable state. *)
Lemma aitable_run_invariant (P : State -> Prop) :
  (forall e s, P s -> P (step e s)) ->
  forall es s, P s -> P (run es s).
Proof.
  intros Hstep es. unfold run.
  induction es as [|e es IH]; intros s Hs; simpl; [assumption|].
  apply IH, Hstep, Hs.
Qed.

Lemma aitable_reachable_invariant (P : State -> Prop) :
  P init ->
  (forall e s, P s -> P (step e s)) ->
  forall s, reachable s -> P s.
Proof.
  intros H0 Hstep s [es ->]. now apply aitable_run_invariant.
Qed.

(** *** Row search *)

Lemma rowMatches_selected (q : string) (r : Row) :
  rowMatches q r = true <-> Spec.rowSelected q r.
Proof.
  unfold rowMatches, Spec.rowSelected.
  rewrite existsb_exists.
  split; intros [c [Hin Hc]]; exists c; split; try assumption;
    now apply includes_contains.
Qed.

Lemma filter_selection {A} (P : A -> Prop) (f : A -> bool) :
  (forall x, f x = true <-> P x) ->
  forall l, Spec.selection P l (List.filter f l).
Proof.
  intros Hf. induction l as [|x l IH]; simpl.
  - constructor.
  - destruct (f x) eqn:E.
    + apply Spec.selection_keep; [now apply Hf | assumption].
    + apply Spec.selection_drop; [|assumption].
      intros HP. apply Hf in HP. congruence.
Qed.

Lemma selection_unique {A} (P : A -> Prop) (l l1 l2 : list A) :
  Spec.selection P l l1 -> Spec.selection P l l2 -> l1 = l2.
Proof.
  intros H1. revert l2.
  induction H1 as [|x l l1 Hx _ IH|x l l1 Hx _ IH]; intros l2 H2;
    inversion H2; subst; try contradiction; try reflexivity.
  - f_equal. now apply IH.
  - now apply IH.
Qed.

Lemma empty_search_matches (r : Row) : r <> [] -> rowMatches "" r = true.
Proof.
  destruct r as [|c r]; [congruence|]. intros _.
  unfold rowMatches. simpl. now rewrite includes_empty.
Qed.

(** C10. For every search string, [filtered] is exactly the rows of
    [IRIS], in their original order, that have at least one cell whose
    string form contains the search string up to case: it is a
    selection of [IRIS] by that criterion, it is the only one, it is no
    longer than [IRIS], and the empty search string keeps every row. *)
Theorem filtered_exactly_matching_rows (q : string) :
  Spec.selection (Spec.rowSelected q) IRIS (filtered q) /\
  (forall rows, Spec.selection (Spec.rowSelected q) IRIS rows -> rows = filtered q) /\
  (List.length (filtered q) <= List.length IRIS)%nat /\
  filtered "" = IRIS.
Proof.
  assert (Hsel : Spec.selection (Spec.rowSelected q) IRIS (filtered q)).
  { apply filter_selection. intros r. apply rowMatches_selected. }
  split; [exact Hsel|]. split; [|split].
  - intros rows Hrows. exact (selection_unique _ _ _ _ Hrows Hsel).
  - apply List.filter_length_le.
  - apply List.forallb_filter_id.
    apply forallb_forall. intros r Hr. apply empty_search_matches.
    intros ->. revert Hr. vm_compute. intuition discriminate.
Qed.

Example filtered_vers :
  filtered "VERS" =
    [ iris 57 25 50 20 "Versicolor"; iris 58 28 51 24 "Versicolor";
      iris 64 32 53 23 "Versicolor"; iris 65 30 55 18 "Versicolor" ].
Proof. reflexivity. Qed.

(** [3.0] is shown as ["3"], so searching for ["3.0"] finds nothing. *)
Example filtered_3_0 : filtered "3.0" = [] /\ List.length (filtered "3") = 14%nat.
Proof. split; reflexivity. Qed.

(** *** Side panels *)

Lemma togglePanel_panel (p : string) (s : State) :
  panel (togglePanel p s) =
    match panel s with
    | Some prev => if String.eqb prev p then None else Some p
    | None => Some p
    end.
Proof. reflexivity. Qed.

Lemma togglePanel_valid (p : string) (s : State) :
  p = "chat" \/ p = "stats" -> panelValid (togglePanel p s).
Proof.
  intros Hp. unfold panelValid. rewrite togglePanel_panel.
  destruct (panel s) as [prev|]; [destruct (String.eqb prev p)|];
    destruct Hp as [-> | ->]; auto.
Qed.

Lemma step_panelValid (e : Event) (s : State) :
  panelValid s -> panelValid (step e s).
Proof.
  intros H. destruct e; simpl; try exact H.
  - destruct (tableDropOpen s); [|exact H].
    destruct (nth_error (TABLES s) i); exact H.
  - destruct (multiSheet s); exact H.
  - destruct (multiSheet s && sheetDropOpen s); [|exact H].
    destruct (nth_error (sheets (activeTable s)) i); exact H.
  - destruct file; exact H.
  - apply togglePanel_valid. now left.
  - apply togglePanel_valid. now right.
  - destruct (panelOpen s); [left; reflexivity | exact H].
  - destruct (chatOpen s); exact H.
  - destruct (chatOpen s); [|exact H].
    unfold sendMsg. destruct (negb _); exact H.
  - destruct (chatOpen s); [|exact H].
    unfold sendMsg. destruct (negb _); exact H.
  - unfold replyTimer. destruct (timers s); exact H.
Qed.

(** C8 (as amended). Toggling the same panel twice restores the state
    when that panel, or no panel, was open; when the other panel was
    open the two toggles leave the panel closed.  In every reachable
    state [panel] is [null], ["chat"] or ["stats"], so the chat and the
    stats panel are never open together. *)
Theorem togglePanel_twice :
  (forall p s, panel s = None \/ panel s = Some p ->
               togglePanel p (togglePanel p s) = s) /\
  (forall p q s, panel s = Some q -> q <> p ->
                 panel (togglePanel p (togglePanel p s)) = None) /\
  (forall s, reachable s ->
             panelValid s /\
             ~ (panel s = Some "chat" /\ panel s = Some "stats")).
Proof.
  split; [|split].
  - intros p s H. destruct s as [T aT aS pn tD sD se ci ms tm].
    unfold togglePanel, setPanel; simpl in *.
    destruct H as [-> | ->]; simpl; rewrite String.eqb_refl; reflexivity.
  - intros p q s Hq Hne. rewrite !togglePanel_panel, Hq.
    apply String.eqb_neq in Hne. rewrite Hne, String.eqb_refl. reflexivity.
  - intros s Hs. split.
    + revert s Hs. apply aitable_reachable_invariant.
      * left; reflexivity.
      * apply step_panelValid.
    + intros [H1 H2]. rewrite H1 in H2. discriminate.
Qed.

(** The witness: a toggle pair on the closed page, the other-panel
    case, and a reachable state. *)
Lemma togglePanel_twice_witness :
  togglePanel "chat" (togglePanel "chat" init) = init /\
  panel (togglePanel "stats" (togglePanel "stats" (togglePanel "chat" init))) = None /\
  panelValid (run [ClickChatToggle; ClickStatsToggle] init).
Proof.
  split; [|split].
  - apply (proj1 togglePanel_twice "chat" init). left; reflexivity.
  - apply (proj1 (proj2 togglePanel_twice) "stats" "chat" (togglePanel "chat" init)).
    + reflexivity.
    + discriminate.
  - apply (proj2 (proj2 togglePanel_twice)).
    exists [ClickChatToggle; ClickStatsToggle]. reflexivity.
Defined.

(** C8 as stated fails: with the chat panel open, toggling the stats
    panel twice closes both instead of coming back to the chat panel. *)
Lemma togglePanel_twice_not_involutive :
  let s := run [ClickChatToggle] init in
  panel s = Some "chat" /\
  panel (togglePanel "stats" (togglePanel "stats" s)) = None /\
  togglePanel "stats" (togglePanel "stats" s) <> s.
Proof.
  split; [reflexivity|]. split; [reflexivity|].
  intros H. apply (f_equal panel) in H. discriminate H.
Qed.

(** *** Table and sheet selection *)

Lemma switchTable_sheetOfActive (t : Table) (s : State) :
  sheets t <> [] -> sheetOfActive (switchTable t s).
Proof.
  intros Ht. unfold sheetOfActive; simpl.
  destruct (sheets t) as [|sh rest]; [congruence|].
  exists sh. simpl. auto.
Qed.

Lemma step_selectionValid (e : Event) (s : State) :
  selectionValid s -> selectionValid (step e s).
Proof.
  intros [HT HA]. unfold selectionValid.
  destruct e; simpl; try (split; assumption).
  - destruct (tableDropOpen s); [|split; assumption].
    destruct (nth_error (TABLES s) i) as [t|] eqn:E; [|split; assumption].
    split; [exact HT|]. apply switchTable_sheetOfActive.
    rewrite Forall_forall in HT. apply HT. eapply nth_error_In, E.
  - destruct (multiSheet s); split; assumption.
  - destruct (multiSheet s && sheetDropOpen s); [|split; assumption].
    destruct (nth_error (sheets (activeTable s)) i) as [sh|] eqn:E;
      [|split; assumption].
    split; [exact HT|]. exists sh. simpl. split; [reflexivity|].
    eapply nth_error_In, E.
  - destruct file as [name|]; [|split; assumption]. simpl. split.
    + apply Forall_app. split; [exact HT|]. constructor; [discriminate|constructor].
    + exists "Sheet1". simpl. auto.
  - destruct (panelOpen s); split; assumption.
  - destruct (chatOpen s); split; assumption.
  - destruct (chatOpen s); [|split; assumption].
    unfold sendMsg. destruct (negb _); split; assumption.
  - destruct (chatOpen s); [|split; assumption].
    unfold sendMsg. destruct (negb _); split; assumption.
  - unfold replyTimer. destruct (timers s); split; assumption.
Qed.

(** C9. After [switchTable(t)] for a table with at least one sheet the
    active table is [t], the active sheet is the first sheet of [t],
    a member of the active table's sheets, and both drop-downs are
    closed.  The membership holds in every reachable state. *)
Theorem switchTable_post :
  (forall t s, sheets t <> [] ->
     let s' := switchTable t s in
     activeTable s' = t /\
     activeSheet s' = List.head (sheets t) /\
     sheetOfActive s' /\
     tableDropOpen s' = false /\ sheetDropOpen s' = false) /\
  (forall s, reachable s -> sheetOfActive s).
Proof.
  split.
  - intros t s Ht s'. subst s'.
    split; [reflexivity|]. split; [|split; [|split; reflexivity]].
    + simpl. now destruct (sheets t).
    + now apply switchTable_sheetOfActive.
  - intros s Hs.
    enough (selectionValid s) as [_ H] by exact H.
    revert s Hs. apply aitable_reachable_invariant.
    + split.
      * repeat constructor; discriminate.
      * exists "Sheet1". simpl. auto.
    + apply step_selectionValid.
Qed.

Lemma switchTable_post_witness :
  let t := mkTable "sales_q1" "sales_Q1.xlsx" ["Jan"; "Feb"; "Mar"] in
  sheets t <> [] /\
  activeSheet (switchTable t init) = Some "Jan" /\
  sheetOfActive (run [ClickTablePill; ClickTableItem 2; ClickSheetPill; ClickSheetItem 1] init).
Proof.
  split; [discriminate|]. split.
  - apply (proj1 switchTable_post
             (mkTable "sales_q1" "sales_Q1.xlsx" ["Jan"; "Feb"; "Mar"]) init).
    discriminate.
  - apply (proj2 switchTable_post).
    exists [ClickTablePill; ClickTableItem 2; ClickSheetPill; ClickSheetItem 1].
    reflexivity.
Defined.

Example select_sheet_run :
  let s := run [ClickTablePill; ClickTableItem 2; ClickSheetPill; ClickSheetItem 1] init in
  id (activeTable s) = "inventory" /\ activeSheet s = Some "Clothing" /\
  tableDropOpen s = false /\ sheetDropOpen s = false.
Proof. repeat split; reflexivity. Qed.

(** Without a sheet there is no first one: [t.sheets[0]] is [undefined]. *)
Example switchTable_no_sheet :
  activeSheet (switchTable (mkTable "t" "t" []) init) = None.
Proof. reflexivity. Qed.

End AiTableFacts.

(** ** The document chat page *)

Section RagChatFacts.

Import RagChat.

Lemma ragchat_run_invariant (P : State -> Prop) :
  (forall e s, P s -> P (step e s)) ->
  forall es s, P s -> P (run es s).
Proof.
  intros Hstep es. unfold run.
  induction es as [|e es IH]; intros s Hs; simpl; [assumption|].
  apply IH, Hstep, Hs.
Qed.

Lemma handleSend_settle (s : State) :
  JS.settle (handleSend s) s =
    if JS.truthy (JS.trim (input s)) then posted s else s.
Proof. unfold handleSend. now destruct (JS.truthy _). Qed.

(** What one step does to the message list. *)
Lemma step_messages (e : Event) (s : State) :
  messages (step e s) =
    if sendsNow e s then messages s ++ [mkMessage "user" (JS.trim (input s)) None]
    else if repliesNow e s then messages s ++ [assistantReply]
    else match e with ClickNewChat => [] | _ => messages s end.
Proof.
  destruct e; simpl; try reflexivity.
  - rewrite handleSend_settle. now destruct (JS.truthy _).
  - rewrite handleSend_settle. now destruct (JS.truthy _).
  - destruct (emptyShown s); [|reflexivity].
    now destruct (nth_error SUGGESTED_QUESTIONS i).
  - unfold replyTimer. now destruct (timers s).
Qed.


(** *** Sources and their relevance *)

Lemma slice_length {A} (a b : nat) (l : list A) :
  (List.length (JS.slice a b l) <= b - a)%nat.
Proof. unfold JS.slice. apply List.firstn_le_length. Qed.

Lemma slice_nth_error {A} (a b i : nat) (l : list A) (x : A) :
  nth_error (JS.slice a b l) i = Some x -> nth_error l (a + i) = Some x.
Proof.
  unfold JS.slice. rewrite List.nth_error_firstn, List.nth_error_skipn.
  now destruct (i <? b - a)%nat.
Qed.

Lemma slice_descending (a b : nat) (l : list Source) :
  Spec.descending l -> Spec.descending (JS.slice a b l).
Proof.
  intros Hl i j x y Hij Hx Hy.
  apply slice_nth_error in Hx, Hy.
  apply (Hl (a + i)%nat (a + j)%nat); [lia | assumption | assumption].
Qed.

Lemma slice_In {A} (a b : nat) (l : list A) (x : A) :
  In x (JS.slice a b l) -> In x l.
Proof.
  intros H. apply List.In_nth_error in H as [i Hi].
  apply slice_nth_error in Hi. eapply List.nth_error_In, Hi.
Qed.

Lemma MOCK_SOURCES_descending : Spec.descending MOCK_SOURCES.
Proof.
  intros i j x y Hij Hx Hy. unfold MOCK_SOURCES in Hx, Hy.
  destruct i as [|[|[|[|[|i]]]]]; cbn in Hx;
    [injection Hx as <- .. | destruct i; discriminate];
    (destruct j as [|[|[|[|[|j]]]]]; cbn in Hy;
     [injection Hy as <- .. | destruct j; discriminate]);
    cbn; lia.
Qed.

Lemma step_sourcesKnown (e : Event) (s : State) :
  Forall sourcesKnown (messages s) -> Forall sourcesKnown (messages (step e s)).
Proof.
  intros H. rewrite step_messages.
  destruct (sendsNow e s); [|destruct (repliesNow e s)].
  - apply Forall_app. split; [exact H|].
    constructor; [|constructor]. unfold sourcesKnown. left; reflexivity.
  - apply Forall_app. split; [exact H|].
    constructor; [|constructor]. unfold sourcesKnown. right; right; reflexivity.
  - destruct e; try exact H. constructor.
Qed.

Lemma reachable_sourcesKnown (s : State) :
  reachable s -> Forall sourcesKnown (messages s).
Proof.
  intros [es ->]. apply ragchat_run_invariant.
  - apply step_sourcesKnown.
  - unfold init, MOCK_MESSAGES; simpl.
    constructor; [left; reflexivity|].
    constructor; [right; left; reflexivity | constructor].
Qed.

Lemma reachable_sources (s : State) (m : Message) (srcs : list Source) :
  reachable s -> In m (messages s) -> sources m = Some srcs ->
  srcs = MOCK_SOURCES \/ srcs = JS.slice 0 3 MOCK_SOURCES.
Proof.
  intros Hs Hm Hsrc. apply reachable_sourcesKnown in Hs.
  rewrite Forall_forall in Hs. destruct (Hs m Hm) as [H|[H|H]];
    rewrite H in Hsrc; [discriminate | left | right]; congruence.
Qed.

Example top3 :
  List.map relevance (JS.slice 0 3 MOCK_SOURCES) = [94; 87; 76]%Z /\
  List.map relevance (JS.slice 0 9 MOCK_SOURCES) = [94; 87; 76; 71; 65]%Z.
Proof. split; reflexivity. Qed.

Lemma MOCK_SOURCES_percent (src : Source) :
  In src MOCK_SOURCES -> (0 <= relevance src <= 100)%Z.
Proof.
  unfold MOCK_SOURCES. simpl.
  intros [<-|[<-|[<-|[<-|[<-|[]]]]]]; simpl; lia.
Qed.

(** C2 (as amended). Relevance is a percentage: every score of
    [MOCK_SOURCES], and so every score of a source list attached to a
    message of a reachable state, lies between 0 and 100. *)
Theorem relevance_is_percentage :
  (forall src, In src MOCK_SOURCES -> (0 <= relevance src <= 100)%Z) /\
  (forall s m srcs src,
      reachable s -> In m (messages s) -> sources m = Some srcs -> In src srcs ->
      (0 <= relevance src <= 100)%Z).
Proof.
  split; [exact MOCK_SOURCES_percent|].
  intros s m srcs src Hs Hm Hsrcs Hsrc. apply MOCK_SOURCES_percent.
  destruct (reachable_sources s m srcs Hs Hm Hsrcs) as [-> | ->].
  - exact Hsrc.
  - eapply slice_In, Hsrc.
Qed.

Lemma relevance_is_percentage_witness :
  let s := run [Type_ "HPLC?"; PressEnter; TimerFires] init in
  let src := mkSource 2 "22291054.pdf" "p. 3-5" 87 in
  reachable s /\ In assistantReply (messages s) /\
  In src (JS.slice 0 3 MOCK_SOURCES) /\
  (0 <= relevance src <= 100)%Z.
Proof.
  assert (Hr : reachable (run [Type_ "HPLC?"; PressEnter; TimerFires] init))
    by (exists [Type_ "HPLC?"; PressEnter; TimerFires]; reflexivity).
  assert (Hin : In assistantReply
                   (messages (run [Type_ "HPLC?"; PressEnter; TimerFires] init)))
    by (simpl; auto).
  assert (Hsrc : In (mkSource 2 "22291054.pdf" "p. 3-5" 87) (JS.slice 0 3 MOCK_SOURCES))
    by (simpl; auto).
  split; [exact Hr|]. split; [exact Hin|]. split; [exact Hsrc|].
  exact (proj2 relevance_is_percentage _ _ _ _ Hr Hin eq_refl Hsrc).
Defined.

(** C2 as stated fails: the first source the reply carries has
    relevance 94, which is not in the interval from 0 to 1. *)
Lemma relevance_outside_unit_interval :
  let src := mkSource 1 "22718743.pdf" "p. 12-14" 94 in
  sources assistantReply = Some (JS.slice 0 3 MOCK_SOURCES) /\
  In src (JS.slice 0 3 MOCK_SOURCES) /\
  ~ (0 <= relevance src <= 1)%Z.
Proof.
  split; [reflexivity|]. split; [simpl; auto|]. simpl. lia.
Qed.

(** *** One reply per send *)


Example two_sends_two_replies :
  let es := [Type_ "a"; PressEnter; Type_ " "; PressEnter; ClickSend;
             Type_ "b"; ClickSend; TimerFires; TimerFires; TimerFires] in
  occurrences sendsNow es init = 2%nat /\ occurrences repliesNow es init = 2%nat /\
  List.map role (messages (run es init)) =
    ["user"; "assistant"; "user"; "user"; "assistant"; "assistant"].
Proof. repeat split; reflexivity. Qed.

End RagChatFacts.

(** ** Both chats: blank input and the growth of the message list *)

Section ChatFacts.


(** *** The message list only grows, except on New Chat *)

Lemma extends_refl {A} (l : list A) : Spec.extends l l.
Proof. exists []. now rewrite app_nil_r. Qed.

Lemma extends_app {A} (l k : list A) : Spec.extends l (l ++ k).
Proof. now exists k. Qed.

Lemma extends_trans {A} (l1 l2 l3 : list A) :
  Spec.extends l1 l2 -> Spec.extends l2 l3 -> Spec.extends l1 l3.
Proof.
  intros [k1 ->] [k2 ->]. exists (k1 ++ k2). now rewrite app_assoc.
Qed.

Lemma ragchat_step_extends (e : RagChat.Event) (s : RagChat.State) :
  e <> RagChat.ClickNewChat ->
  Spec.extends (RagChat.messages s) (RagChat.messages (RagChat.step e s)).
Proof.
  intros He. rewrite step_messages.
  destruct (RagChat.sendsNow e s); [apply extends_app|].
  destruct (RagChat.repliesNow e s); [apply extends_app|].
  destruct e; try apply extends_refl. congruence.
Qed.

Lemma aitable_step_extends (e : AiTable.Event) (s : AiTable.State) :
  Spec.extends (AiTable.messages s) (AiTable.messages (AiTable.step e s)).
Proof.
  destruct e; simpl; try apply extends_refl.
  - destruct (AiTable.tableDropOpen s); [|apply extends_refl].
    destruct (nth_error (AiTable.TABLES s) i); apply extends_refl.
  - destruct (AiTable.multiSheet s); apply extends_refl.
  - destruct (AiTable.multiSheet s && AiTable.sheetDropOpen s); [|apply extends_refl].
    destruct (nth_error (AiTable.sheets (AiTable.activeTable s)) i); apply extends_refl.
  - destruct file; apply extends_refl.
  - destruct (AiTable.panelOpen s); apply extends_refl.
  - destruct (AiTable.chatOpen s); apply extends_refl.
  - destruct (AiTable.chatOpen s); [|apply extends_refl].
    unfold AiTable.sendMsg. destruct (negb _); simpl;
      [apply extends_refl | apply extends_app].
  - destruct (AiTable.chatOpen s); [|apply extends_refl].
    unfold AiTable.sendMsg. destruct (negb _); simpl;
      [apply extends_refl | apply extends_app].
  - unfold AiTable.replyTimer. destruct (AiTable.timers s); simpl;
      [apply extends_refl | apply extends_app].
Qed.

(** C5 (as amended). On the table page every step keeps the messages
    delivered so far as the front of the list and only appends.  On the
    document page every step but New Chat does; New Chat empties the
    list.  Hence a run without New Chat only appends. *)
Theorem messages_only_appended :
  (forall e s, Spec.extends (AiTable.messages s) (AiTable.messages (AiTable.step e s))) /\
  (forall es s, Spec.extends (AiTable.messages s) (AiTable.messages (AiTable.run es s))) /\
  (forall e s, e <> RagChat.ClickNewChat ->
     Spec.extends (RagChat.messages s) (RagChat.messages (RagChat.step e s))) /\
  (forall es s, ~ In RagChat.ClickNewChat es ->
     Spec.extends (RagChat.messages s) (RagChat.messages (RagChat.run es s))) /\
  (forall s, RagChat.messages (RagChat.step RagChat.ClickNewChat s) = []).
Proof.
  split; [|split; [|split; [|split]]].
  - exact aitable_step_extends.
  - induction es as [|e es IH]; intros s; [apply extends_refl|].
    change (AiTable.run (e :: es) s) with (AiTable.run es (AiTable.step e s)).
    eapply extends_trans; [apply aitable_step_extends | apply IH].
  - exact ragchat_step_extends.
  - induction es as [|e es IH]; intros s Hes; [apply extends_refl|].
    change (RagChat.run (e :: es) s) with (RagChat.run es (RagChat.step e s)).
    eapply extends_trans.
    + apply ragchat_step_extends. intros He. apply Hes. left. exact He.
    + apply IH. intros H. apply Hes. now right.
  - reflexivity.
Qed.

Lemma messages_only_appended_witness :
  let es := [RagChat.Type_ "hi"; RagChat.PressEnter; RagChat.TimerFires] in
  ~ In RagChat.ClickNewChat es /\
  Spec.extends (RagChat.messages RagChat.init)
               (RagChat.messages (RagChat.run es RagChat.init)).
Proof.
  assert (H : ~ In RagChat.ClickNewChat
                [RagChat.Type_ "hi"; RagChat.PressEnter; RagChat.TimerFires]).
  { simpl. intros [H|[H|[H|[]]]]; discriminate H. }
  split; [exact H|].
  exact (proj1 (proj2 (proj2 (proj2 messages_only_appended))) _ RagChat.init H).
Defined.

(** C5 as stated fails on the document page: New Chat between a send
    and its reply drops what the turn had delivered, and the reply then
    lands in the emptied list. *)
Lemma new_chat_drops_delivered :
  let s1 := RagChat.run [RagChat.Type_ "hi"; RagChat.PressEnter] RagChat.init in
  let s2 := RagChat.run [RagChat.ClickNewChat; RagChat.TimerFires] s1 in
  RagChat.messages s1 =
    RagChat.MOCK_MESSAGES ++ [RagChat.mkMessage "user" "hi" None] /\
  RagChat.messages s2 = [RagChat.assistantReply] /\
  ~ Spec.extends (RagChat.messages s1) (RagChat.messages s2).
Proof.
  split; [reflexivity|]. split; [reflexivity|].
  intros [k H]. apply (f_equal (@List.length _)) in H.
  rewrite length_app in H. simpl in H. lia.
Qed.

End ChatFacts.

(** ** Deleting documents *)

Section RagServiceFacts.

Import RagService.

Lemma deleteDocument_lenient (documentId : string) (docs : gmap string Document) :
  deleteDocument false documentId docs = inr (delete documentId docs).
Proof.
  unfold deleteDocument. destruct (docs !! documentId) eqn:E; [reflexivity|].
  f_equal. symmetry. now apply delete_id.
Qed.

(** C6. In non-strict mode [deleteDocument] succeeds on every
    identifier and leaves it absent, so a second call on the same
    identifier succeeds as well and changes nothing; in strict mode
    deleting an absent identifier fails with [NotFound]. *)
Theorem deleteDocument_idempotent :
  (forall documentId docs,
     exists docs1,
       deleteDocument false documentId docs = inr docs1 /\
       docs1 !! documentId = None /\
       deleteDocument false documentId docs1 = inr docs1) /\
  (forall documentId docs,
     docs !! documentId = None ->
     deleteDocument true documentId docs = inl NotFound).
Proof.
  split.
  - intros documentId docs. exists (delete documentId docs).
    split; [apply deleteDocument_lenient|].
    split; [apply lookup_delete_eq|].
    rewrite deleteDocument_lenient. f_equal. apply delete_id, lookup_delete_eq.
  - intros documentId docs H. unfold deleteDocument. now rewrite H.
Qed.

Lemma deleteDocument_idempotent_witness :
  (∅ : gmap string Document) !! "nonexistent-id" = None /\
  deleteDocument true "nonexistent-id" ∅ = inl NotFound /\
  deleteDocument false "nonexistent-id" ∅ = inr ∅.
Proof.
  split; [apply lookup_empty|]. split.
  - apply (proj2 deleteDocument_idempotent). apply lookup_empty.
  - reflexivity.
Defined.

Example delete_present :
  let d := mkDocument "d1" "notes.txt" indexed 10240 0 0 ∅ in
  deleteDocument true "d1" {[ "d1" := d ]} = inr ∅ /\
  deleteDocument true "d1" ∅ = inl NotFound.
Proof.
  split.
  - unfold deleteDocument. rewrite lookup_singleton_eq.
    now rewrite delete_singleton_eq.
  - reflexivity.
Qed.

End RagServiceFacts.

(** ** White space, case and substrings *)

Section TextFacts.

Lemma hasInk_allWhite (s : string) : JSText.hasInk s <-> JSText.allWhite s = false.
Proof.
  unfold JSText.hasInk, JSText.allWhite. induction s as [|c s IH]; simpl.
  - split; [intros [c [[] _]] | discriminate].
  - destruct (JS.isWhiteSpace c) eqn:E; simpl.
    + rewrite <- IH. split.
      * intros [d [[<-|Hd] Hw]]; [congruence | now exists d].
      * intros [d [Hd Hw]]. exists d. auto.
    + split; [reflexivity | intros _; exists c; auto].
Qed.

Lemma trimStart_empty (s : string) : JS.trimStart s = "" <-> JSText.allWhite s = true.
Proof.
  unfold JSText.allWhite. induction s as [|c s IH]; simpl; [tauto|].
  destruct (JS.isWhiteSpace c); simpl; [exact IH|].
  split; discriminate.
Qed.

Lemma trimEnd_empty (s : string) : JS.trimEnd s = "" <-> JSText.allWhite s = true.
Proof.
  unfold JSText.allWhite. induction s as [|c s IH]; simpl; [tauto|].
  destruct (JS.trimEnd s) eqn:E.
  - destruct (JS.isWhiteSpace c); simpl.
    + split; [intros _; now apply IH | reflexivity].
    + split; discriminate.
  - split; [discriminate|]. rewrite andb_true_iff. intros [_ H].
    apply IH in H. discriminate.
Qed.

Lemma allWhite_trimStart (s : string) : JSText.allWhite (JS.trimStart s) = JSText.allWhite s.
Proof.
  unfold JSText.allWhite. induction s as [|c s IH]; simpl; [reflexivity|].
  destruct (JS.isWhiteSpace c) eqn:E; simpl; [exact IH | now rewrite E].
Qed.

Lemma trim_empty (s : string) : JS.trim s = "" <-> JSText.allWhite s = true.
Proof. unfold JS.trim. now rewrite trimEnd_empty, allWhite_trimStart. Qed.

Lemma truthy_trim_ink (s : string) :
  JS.truthy (JS.trim s) = true <-> JSText.hasInk s.
Proof.
  rewrite hasInk_allWhite. pose proof (trim_empty s) as H.
  destruct (JS.trim s); simpl.
  - destruct (JSText.allWhite s); [split; discriminate | tauto].
  - destruct (JSText.allWhite s); [|tauto].
    destruct H as [_ H]. specialize (H eq_refl). discriminate.
Qed.

Lemma trimStart_inkFirst (s : string) : JSText.inkFirst (JS.trimStart s) = true.
Proof.
  induction s as [|c s IH]; simpl; [reflexivity|].
  destruct (JS.isWhiteSpace c) eqn:E; [exact IH | simpl; now rewrite E].
Qed.

Lemma inkFirst_trimStart (s : string) : JSText.inkFirst s = true -> JS.trimStart s = s.
Proof.
  destruct s as [|c s]; simpl; [reflexivity|].
  now destruct (JS.isWhiteSpace c).
Qed.

Lemma trimEnd_inkFirst (s : string) :
  JSText.inkFirst s = true -> JSText.inkFirst (JS.trimEnd s) = true.
Proof.
  destruct s as [|c s]; simpl; [reflexivity|]. intros H.
  destruct (JS.trimEnd s); [|exact H].
  destruct (JS.isWhiteSpace c) eqn:W; [reflexivity | simpl; now rewrite W].
Qed.

Lemma trimEnd_idempotent (s : string) : JS.trimEnd (JS.trimEnd s) = JS.trimEnd s.
Proof.
  induction s as [|c s IH]; simpl; [reflexivity|].
  destruct (JS.trimEnd s) as [|d r] eqn:E.
  - destruct (JS.isWhiteSpace c) eqn:W; simpl; [reflexivity | now rewrite W].
  - cbn [JS.trimEnd]. cbn [JS.trimEnd] in IH. now rewrite IH.
Qed.

Lemma trim_idempotent (s : string) : JS.trim (JS.trim s) = JS.trim s.
Proof.
  unfold JS.trim.
  rewrite (inkFirst_trimStart (JS.trimEnd (JS.trimStart s))).
  - apply trimEnd_idempotent.
  - apply trimEnd_inkFirst, trimStart_inkFirst.
Qed.

Lemma trim_of_empty (s : string) : s = "" -> JS.trim s = "".
Proof. now intros ->. Qed.

Lemma lowerChar_idempotent (c : ascii) : JS.lowerChar (JS.lowerChar c) = JS.lowerChar c.
Proof. destruct c as [[] [] [] [] [] [] [] []]; reflexivity. Qed.

Lemma toLowerCase_idempotent (s : string) :
  JS.toLowerCase (JS.toLowerCase s) = JS.toLowerCase s.
Proof.
  induction s as [|c s IH]; simpl; [reflexivity|].
  now rewrite lowerChar_idempotent, IH.
Qed.

Lemma toLowerCase_append (a b : string) :
  JS.toLowerCase (a ++ b) = (JS.toLowerCase a ++ JS.toLowerCase b)%string.
Proof. induction a as [|c a IH]; simpl; [reflexivity | now rewrite IH]. Qed.

Lemma string_append_assoc (a b c : string) :
  ((a ++ b) ++ c)%string = (a ++ (b ++ c))%string.
Proof.
  induction a as [|x a IH]; [reflexivity|].
  change (String x ((a ++ b) ++ c) = String x (a ++ (b ++ c)))%string.
  now rewrite IH.
Qed.

Lemma contains_trans (h m n : string) :
  Spec.contains h m -> Spec.contains m n -> Spec.contains h n.
Proof.
  intros [p1 [q1 ->]] [p2 [q2 ->]].
  exists (p1 ++ p2)%string, (q2 ++ q1)%string.
  now rewrite !string_append_assoc.
Qed.

Lemma contains_toLowerCase (h n : string) :
  Spec.contains h n -> Spec.contains (JS.toLowerCase h) (JS.toLowerCase n).
Proof.
  intros [p [q ->]]. exists (JS.toLowerCase p), (JS.toLowerCase q).
  now rewrite !toLowerCase_append.
Qed.

End TextFacts.

(** ** The table analyst page: drop-downs, tables and the chat panel *)

Section AiTableMore.

Import AiTable AiTableChat.

Ltac split_cases :=
  repeat match goal with
         | |- context [if ?b then _ else _] => destruct b eqn:?
         | |- context [match ?o with Some _ => _ | None => _ end] => destruct o eqn:?
         | |- context [match ?n with O => _ | S _ => _ end] => destruct n eqn:?
         end.

Lemma sendMsg_settle (s : State) :
  JS.settle (sendMsg s) s = if JS.truthy (JS.trim (chatInput s)) then posted s else s.
Proof. unfold sendMsg. now destruct (JS.truthy _). Qed.

Lemma step_dropsValid (e : Event) (s : State) :
  dropsValid s -> dropsValid (step e s).
Proof.
  unfold dropsValid, multiSheet. intros [H1 H2].
  destruct e; simpl; rewrite ?sendMsg_settle; unfold replyTimer, importFile;
    split_cases; simpl;
    repeat match goal with
           | H : _ && _ = true |- _ => apply andb_true_iff in H; destruct H
           end;
    split; intros; try congruence; auto;
    try (destruct (tableDropOpen s); simpl in *; congruence);
    try (destruct (sheetDropOpen s); simpl in *; congruence).
Qed.

(** At most one of the two drop-down menus is open in any reachable
    state, and the sheet menu is open only while the active table has
    more than one sheet. *)
Theorem dropdowns_never_both_open (s : State) (Hs : reachable s) :
  ~ (tableDropOpen s = true /\ sheetDropOpen s = true) /\
  (sheetDropOpen s = true -> (1 < List.length (sheets (activeTable s)))%nat).
Proof.
  assert (H : dropsValid s).
  { revert s Hs. apply aitable_reachable_invariant.
    - split; discriminate.
    - apply step_dropsValid. }
  destruct H as [H1 H2]. split.
  - intros [Ht Hsh]. rewrite (H1 Ht) in Hsh. discriminate.
  - intros Hsh. apply H2 in Hsh. unfold multiSheet in Hsh.
    now apply Nat.ltb_lt in Hsh.
Qed.

Lemma dropdowns_never_both_open_witness :
  let s := run [ClickTablePill; ClickTableItem 1; ClickTablePill; ClickSheetPill] init in
  reachable s /\ sheetDropOpen s = true /\ tableDropOpen s = false /\
  (1 < List.length (sheets (activeTable s)))%nat.
Proof.
  assert (Hr : reachable
                 (run [ClickTablePill; ClickTableItem 1; ClickTablePill; ClickSheetPill] init))
    by (eexists; reflexivity).
  split; [exact Hr|]. split; [reflexivity|]. split; [reflexivity|].
  exact (proj2 (dropdowns_never_both_open _ Hr) eq_refl).
Defined.

Lemma step_tablesValid (e : Event) (s : State) :
  tablesValid s -> tablesValid (step e s).
Proof.
  unfold tablesValid. intros [[added Ha] Hin].
  destruct e; simpl; rewrite ?sendMsg_settle; unfold replyTimer;
    try (split_cases; simpl; (split; [now exists added | assumption]); fail).
  - destruct (tableDropOpen s); [|split; [now exists added | assumption]].
    destruct (nth_error (TABLES s) i) as [t|] eqn:E;
      [|split; [now exists added | assumption]].
    simpl. split; [now exists added|]. eapply nth_error_In, E.
  - destruct file as [name|]; [|split; [now exists added | assumption]].
    simpl. split.
    + exists (added ++ [mkTable name name ["Sheet1"]]). rewrite Ha.
      symmetry. apply (app_assoc TABLES0 added).
    + apply in_app_iff. right. now left.
Qed.

(** In every reachable state the three built-in tables still head the
    table list, in their order, and the active table is one of the
    listed tables. *)
Theorem active_table_is_listed (s : State) (Hs : reachable s) :
  (exists added, TABLES s = TABLES0 ++ added) /\ In (activeTable s) (TABLES s).
Proof.
  revert s Hs. apply aitable_reachable_invariant.
  - split; [now exists [] | now left].
  - apply step_tablesValid.
Qed.

Lemma active_table_is_listed_witness :
  let s := run [ImportFile (Some "q2.csv"); ClickTablePill; ClickTableItem 2] init in
  reachable s /\ In (activeTable s) (TABLES s) /\ List.length (TABLES s) = 4%nat.
Proof.
  assert (Hr : reachable
                 (run [ImportFile (Some "q2.csv"); ClickTablePill; ClickTableItem 2] init))
    by (eexists; reflexivity).
  split; [exact Hr|]. split; [|reflexivity].
  exact (proj2 (active_table_is_listed _ Hr)).
Defined.

Lemma step_TABLES (e : Event) (s : State) :
  TABLES (step e s) =
    match e with
    | ImportFile (Some name) => TABLES s ++ [mkTable name name ["Sheet1"]]
    | _ => TABLES s
    end.
Proof.
  destruct e; simpl; rewrite ?sendMsg_settle; unfold replyTimer;
    split_cases; reflexivity.
Qed.

(** Along every run the table list grows by exactly one entry per file
    chosen in the import dialog and by nothing else; a cancelled dialog
    adds nothing. *)
Theorem tables_grow_by_imports (es : list Event) (s : State) :
  List.length (TABLES (run es s)) =
    (List.length (TABLES s) + occurrences importsNow es s)%nat /\
  exists added, TABLES (run es s) = TABLES s ++ added.
Proof.
  revert s. induction es as [|e es IH]; intros s.
  - simpl. split; [lia | exists []; now rewrite app_nil_r].
  - change (run (e :: es) s) with (run es (step e s)). cbn [occurrences].
    destruct (IH (step e s)) as [Hlen [added Hadd]].
    rewrite Hlen, Hadd, step_TABLES.
    destruct e; simpl; try (split; [lia | now exists added]).
    destruct file as [name|]; simpl.
    + rewrite length_app. simpl. split; [lia|].
      exists ([mkTable name name ["Sheet1"]] ++ added). now rewrite app_assoc.
    + split; [lia | now exists added].
Qed.

Example import_cancel_and_twice :
  let s := run [ImportFile None; ImportFile (Some "a.csv"); ImportFile (Some "a.csv")] init in
  List.map id (TABLES s) = ["iris_3"; "sales_q1"; "inventory"; "a.csv"; "a.csv"] /\
  label (activeTable s) = "a.csv" /\ activeSheet s = Some "Sheet1".
Proof. repeat split; reflexivity. Qed.

Lemma NoDup_snoc {A} (l : list A) (x : A) :
  NoDup (l ++ [x]) <-> NoDup l /\ ~ In x l.
Proof.
  induction l as [|a l IH]; simpl.
  - split; [intros _; split; [constructor | tauto] | intros _; repeat constructor; tauto].
  - rewrite !NoDup_cons_iff, IH, in_app_iff. simpl. intuition congruence.
Qed.

(** The import handler does not look for an existing table of the same
    name: when the table ids are distinct, they stay distinct after an
    import exactly when the file name is not yet an id; importing a
    name that is already listed leaves two tables with the same id. *)
Theorem import_ids_unique_iff_fresh (name : string) (s : State)
    (H : NoDup (List.map id (TABLES s))) :
  NoDup (List.map id (TABLES (importFile (Some name) s))) <->
  ~ In name (List.map id (TABLES s)).
Proof.
  simpl. rewrite map_app. simpl. rewrite NoDup_snoc. tauto.
Qed.

Lemma import_ids_unique_iff_fresh_witness :
  NoDup (List.map id (TABLES init)) /\
  NoDup (List.map id (TABLES (importFile (Some "q2.csv") init))) /\
  ~ NoDup (List.map id (TABLES (importFile (Some "iris_3") init))).
Proof.
  assert (H : NoDup (List.map id (TABLES init))).
  { simpl. repeat constructor; simpl; intuition discriminate. }
  split; [exact H|]. split.
  - apply (proj2 (import_ids_unique_iff_fresh "q2.csv" init H)).
    simpl. intuition discriminate.
  - intros Hn. apply (proj1 (import_ids_unique_iff_fresh "iris_3" init H)) in Hn.
    apply Hn. simpl. now left.
Defined.

End AiTableMore.

(** ** The chat panel of the table page and the row search, further *)

Section AiTableChatFacts.

Import AiTable AiTableChat.

(** What one step does to the messages and the timers of the panel. *)
Lemma aitable_step_messages (e : Event) (s : State) :
  messages (step e s) =
    if sendsNow e s then messages s ++ [mkMsg "user" (chatInput s)]
    else if repliesNow e s then messages s ++ [demoReply]
    else messages s.
Proof.
  destruct e; simpl; rewrite ?sendMsg_settle; unfold replyTimer, importFile;
    repeat match goal with
           | |- context [if ?b then _ else _] => destruct b eqn:?
           | |- context [match ?o with Some _ => _ | None => _ end] => destruct o eqn:?
           | |- context [match ?n with O => _ | S _ => _ end] => destruct n eqn:?
           end; simpl in *; try reflexivity; try discriminate.
Qed.

Lemma aitable_step_timers (e : Event) (s : State) :
  ((if repliesNow e s then 1 else 0) + timers (step e s) =
   (if sendsNow e s then 1 else 0) + timers s)%nat.
Proof.
  destruct e; simpl; rewrite ?sendMsg_settle;
    try (unfold replyTimer; destruct (timers s) eqn:E; simpl; lia);
    unfold importFile;
    repeat match goal with
           | |- context [if ?b then _ else _] => destruct b eqn:?
           | |- context [match ?o with Some _ => _ | None => _ end] => destruct o eqn:?
           end; simpl in *; try reflexivity; try discriminate.
Qed.

(** On the table page nothing is ever lost or left unanswered for good:
    along every run the replies delivered plus the timers pending equal
    the sends accepted plus the timers pending at the start, and the
    message list has grown by one entry per accepted send and one per
    reply delivered. *)
Theorem table_chat_accounted (es : list Event) (s : State) :
  (occurrences repliesNow es s + timers (run es s) =
   occurrences sendsNow es s + timers s)%nat /\
  (List.length (messages (run es s)) =
   List.length (messages s) + occurrences sendsNow es s + occurrences repliesNow es s)%nat.
Proof.
  revert s. induction es as [|e es IH]; intros s; [simpl; lia|].
  change (run (e :: es) s) with (run es (step e s)). cbn [occurrences].
  destruct (IH (step e s)) as [H1 H2].
  pose proof (aitable_step_timers e s) as Ht.
  assert (Hm : (List.length (messages (step e s)) =
                List.length (messages s) + (if sendsNow e s then 1 else 0)
                + (if repliesNow e s then 1 else 0))%nat).
  { rewrite aitable_step_messages.
    destruct (sendsNow e s) eqn:Es; [|destruct (repliesNow e s)];
      rewrite ?length_app; simpl; try lia.
    destruct e; simpl in *; try discriminate; lia. }
  lia.
Qed.

Example table_chat_run :
  let es := [ClickChatToggle; TypeChat " mean? "; PressEnterChat; PressEnterChat;
             ClickStatsToggle; TimerFires; TimerFires] in
  List.map role (messages (run es init)) =
    ["assistant"; "user"; "assistant"; "user"; "assistant"] /\
  List.map text (List.skipn 3 (messages (run es init))) = [" mean? "; text demoReply] /\
  timers (run es init) = 0%nat.
Proof. repeat split; reflexivity. Qed.

Lemma aitable_step_msgValid (e : Event) (s : State) :
  Forall msgValid (messages s) -> Forall msgValid (messages (step e s)).
Proof.
  intros H. rewrite aitable_step_messages.
  destruct (sendsNow e s) eqn:Es; [|destruct (repliesNow e s)]; try exact H.
  - apply Forall_app. split; [exact H|]. constructor; [|constructor].
    unfold msgValid. right. split; [reflexivity|]. simpl. apply truthy_trim_ink.
    destruct e; simpl in Es; try discriminate;
      now apply andb_true_iff in Es.
  - apply Forall_app. split; [exact H|]. constructor; [|constructor].
    unfold msgValid. left; reflexivity.
Qed.

(** No blank message enters the chat panel: in every reachable state
    each message is from the assistant or is a user message with at
    least one code unit that is not white space.  The text is stored as
    typed, without trimming: an accepted send appends the input itself. *)
Theorem table_chat_messages_not_blank :
  (forall s, reachable s ->
     forall m, In m (messages s) ->
       role m = "assistant" \/ (role m = "user" /\ JSText.hasInk (text m))) /\
  (forall e s, sendsNow e s = true ->
     messages (step e s) = messages s ++ [mkMsg "user" (chatInput s)]).
Proof.
  split.
  - intros s Hs. apply Forall_forall. revert s Hs. apply aitable_reachable_invariant.
    + unfold init, CHAT_MSGS, msgValid; simpl.
      constructor; [left; reflexivity|].
      constructor; [|constructor; [left; reflexivity | constructor]].
      right. split; [reflexivity|]. apply truthy_trim_ink. reflexivity.
    + apply aitable_step_msgValid.
  - intros e s H. now rewrite aitable_step_messages, H.
Qed.

Lemma table_chat_messages_not_blank_witness :
  let s0 := run [ClickChatToggle; TypeChat " mean? "] init in
  let s := step PressEnterChat s0 in
  reachable s /\ sendsNow PressEnterChat s0 = true /\
  messages s = CHAT_MSGS ++ [mkMsg "user" " mean? "] /\
  JSText.hasInk " mean? ".
Proof.
  assert (Hr : reachable (step PressEnterChat (run [ClickChatToggle; TypeChat " mean? "] init)))
    by (exists [ClickChatToggle; TypeChat " mean? "; PressEnterChat]; reflexivity).
  assert (Hin : In (mkMsg "user" " mean? ")
                   (messages (step PressEnterChat
                                (run [ClickChatToggle; TypeChat " mean? "] init))))
    by (simpl; auto).
  split; [exact Hr|]. split; [reflexivity|]. split.
  - exact (proj2 table_chat_messages_not_blank PressEnterChat
             (run [ClickChatToggle; TypeChat " mean? "] init) eq_refl).
  - destruct (proj1 table_chat_messages_not_blank _ Hr _ Hin) as [H|[_ H]];
      [discriminate H | exact H].
Defined.

(** *** Narrowing the search *)

Lemma rowMatches_narrow (q1 q2 : string) (r : Row) :
  Spec.contains q2 q1 -> rowMatches q2 r = true -> rowMatches q1 r = true.
Proof.
  intros Hc. rewrite !rowMatches_selected. intros [c [Hin H]].
  exists c. split; [exact Hin|].
  eapply contains_trans; [exact H | now apply contains_toLowerCase].
Qed.

Lemma filter_filter {A} (f g : A -> bool) (l : list A) :
  (forall x, g x = true -> f x = true) ->
  List.filter g (List.filter f l) = List.filter g l.
Proof.
  intros Hfg. induction l as [|x l IH]; simpl; [reflexivity|].
  destruct (f x) eqn:Ef; simpl.
  - now rewrite IH.
  - destruct (g x) eqn:Eg; [|exact IH].
    apply Hfg in Eg. congruence.
Qed.

(** Typing more can only remove rows: when the search string [q1]
    occurs inside [q2], the rows shown for [q2] are those rows shown
    for [q1] that also match [q2]; so they are among the rows for [q1]
    and no more numerous. *)
Theorem search_narrows (q1 q2 : string) (H : Spec.contains q2 q1) :
  filtered q2 = List.filter (rowMatches q2) (filtered q1) /\
  (forall r, In r (filtered q2) -> In r (filtered q1)) /\
  (List.length (filtered q2) <= List.length (filtered q1))%nat.
Proof.
  assert (E : filtered q2 = List.filter (rowMatches q2) (filtered q1)).
  { unfold filtered. symmetry. apply filter_filter.
    intros r. now apply rowMatches_narrow. }
  split; [exact E|]. split.
  - intros r. rewrite E, filter_In. tauto.
  - rewrite E. apply List.filter_length_le.
Qed.

Lemma search_narrows_witness :
  Spec.contains "ver" "v" /\
  List.length (filtered "v") = 8%nat /\ List.length (filtered "ver") = 4%nat /\
  (List.length (filtered "ver") <= List.length (filtered "v"))%nat.
Proof.
  assert (H : Spec.contains "ver" "v") by (now exists "", "er").
  split; [exact H|]. split; [reflexivity|]. split; [reflexivity|].
  exact (proj2 (proj2 (search_narrows "v" "ver" H))).
Defined.

(** The search ignores case on both sides: a search string and its
    lower-case form show the same rows, and so do any two search
    strings with the same lower-case form. *)
Theorem search_ignores_case :
  (forall q, filtered (JS.toLowerCase q) = filtered q) /\
  (forall q1 q2, JS.toLowerCase q1 = JS.toLowerCase q2 -> filtered q1 = filtered q2).
Proof.
  assert (H : forall q1 q2, JS.toLowerCase q1 = JS.toLowerCase q2 ->
                            filtered q1 = filtered q2).
  { intros q1 q2 E. unfold filtered, rowMatches. now rewrite E. }
  split; [|exact H].
  intros q. apply H, toLowerCase_idempotent.
Qed.

Lemma search_ignores_case_witness :
  JS.toLowerCase "SeToSa" = JS.toLowerCase "SETOSA" /\
  filtered "SeToSa" = filtered "SETOSA" /\ List.length (filtered "SETOSA") = 10%nat.
Proof.
  split; [reflexivity|]. split; [|reflexivity].
  apply (proj2 search_ignores_case). reflexivity.
Defined.

End AiTableChatFacts.

(** ** The document chat page, further *)

Section RagChatMore.

Import RagChat RagChatView.

(** *** What the bubbles and the top bar show *)

Lemma step_messageValid (e : Event) (s : State) :
  Forall messageValid (messages s) -> Forall messageValid (messages (step e s)).
Proof.
  intros H. rewrite step_messages.
  destruct (sendsNow e s) eqn:Es; [|destruct (repliesNow e s)].
  - apply Forall_app. split; [exact H|]. constructor; [|constructor].
    unfold messageValid. left. simpl.
    assert (Ht : JS.truthy (JS.trim (input s)) = true)
      by (destruct e; simpl in Es; try discriminate; exact Es).
    split; [reflexivity|]. split; [reflexivity|]. split.
    + intros E. rewrite E in Ht. discriminate.
    + apply trim_idempotent.
  - apply Forall_app. split; [exact H|]. constructor; [|constructor].
    unfold messageValid. right. split; [reflexivity|].
    exists (JS.slice 0 3 MOCK_SOURCES). split; [reflexivity | left; reflexivity].
  - destruct e; try exact H. constructor.
Qed.

(** In every reachable state a message is either a user message, with
    no sources and a non-empty text without white space at its ends, or
    an assistant message carrying three or five sources.  So the
    sources panel appears under exactly the assistant's bubbles, and its
    header counts 3 or 5. *)
Theorem bubbles_well_formed (s : State) (Hs : reachable s) :
  forall m, In m (messages s) ->
    messageValid m /\
    showsSources m = negb (isUser m) /\
    (isUser m = false -> sourcesCount m = Some 3%nat \/ sourcesCount m = Some 5%nat).
Proof.
  assert (H : Forall messageValid (messages s)).
  { destruct Hs as [es ->]. apply ragchat_run_invariant.
    - apply step_messageValid.
    - unfold init, MOCK_MESSAGES, messageValid; simpl.
      constructor; [|constructor; [|constructor]].
      + left. split; [reflexivity|]. split; [reflexivity|].
        split; [discriminate | reflexivity].
      + right. split; [reflexivity|]. exists MOCK_SOURCES.
        split; [reflexivity | right; reflexivity]. }
  intros m Hm. rewrite Forall_forall in H. specialize (H m Hm).
  split; [exact H|].
  unfold showsSources, isUser, sourcesCount.
  destruct H as [(Hr & Hsrc & _) | (Hr & srcs & Hsrc & Hlen)];
    rewrite Hr, Hsrc; simpl.
  - split; [reflexivity | discriminate].
  - split; [reflexivity|]. intros _. destruct Hlen as [-> | ->]; auto.
Qed.

Lemma bubbles_well_formed_witness :
  let s := run [Type_ "  HPLC?  "; PressEnter; TimerFires] init in
  reachable s /\ In (mkMessage "user" "HPLC?" None) (messages s) /\
  showsSources (mkMessage "user" "HPLC?" None) = false.
Proof.
  assert (Hr : reachable (run [Type_ "  HPLC?  "; PressEnter; TimerFires] init))
    by (eexists; reflexivity).
  assert (Hin : In (mkMessage "user" "HPLC?" None)
                   (messages (run [Type_ "  HPLC?  "; PressEnter; TimerFires] init)))
    by (simpl; auto).
  split; [exact Hr|]. split; [exact Hin|].
  exact (proj1 (proj2 (bubbles_well_formed _ Hr _ Hin))).
Defined.

Lemma string_length_append (a b : string) :
  String.length (a ++ b) = (String.length a + String.length b)%nat.
Proof.
  induction a as [|c a IH]; [reflexivity|].
  change (S (String.length (a ++ b)) = S (String.length a + String.length b)).
  now rewrite IH.
Qed.

Lemma sliceTo_length (n : nat) (t : string) :
  String.length (JSText.sliceTo n t) = Nat.min n (String.length t).
Proof.
  revert t. induction n as [|n IH]; intros [|c t]; simpl; try reflexivity.
  now rewrite IH.
Qed.

Lemma sliceTo_all (n : nat) (t : string) :
  (String.length t <= n)%nat -> JSText.sliceTo n t = t.
Proof.
  revert t. induction n as [|n IH]; intros [|c t]; simpl; intros H;
    try reflexivity; try lia.
  rewrite IH; [reflexivity | lia].
Qed.

Lemma sliceTo_prefix (n : nat) (t : string) :
  exists rest, t = (JSText.sliceTo n t ++ rest)%string.
Proof.
  revert t. induction n as [|n IH]; intros t.
  - exists t. now destruct t.
  - destruct t as [|c t]; [now exists ""|].
    destruct (IH t) as [rest Hr]. exists rest.
    change (String c t = String c (JSText.sliceTo n t ++ rest)%string).
    now rewrite <- Hr.
Qed.

(** The title of the top bar is never longer than 53 code units.  It is
    "New Chat" for an empty conversation, the whole first message when
    that has at most 50 code units, and otherwise its first 50 code
    units followed by three dots. *)
Theorem title_bounded (s : State) :
  (String.length (title s) <= 53)%nat /\
  (messages s = [] -> title s = "New Chat") /\
  (forall m rest, messages s = m :: rest ->
     ((String.length (content m) <= 50)%nat -> title s = content m) /\
     ((50 < String.length (content m))%nat ->
        title s = (JSText.sliceTo 50 (content m) ++ "...")%string /\
        String.length (title s) = 53%nat /\
        exists tail, content m = (JSText.sliceTo 50 (content m) ++ tail)%string)).
Proof.
  unfold title. split; [|split].
  - destruct (messages s) as [|m rest]; [simpl; lia|].
    rewrite string_length_append, sliceTo_length.
    destruct (50 <? String.length (content m))%nat;
      [change (String.length "...") with 3%nat
      |change (String.length "") with 0%nat]; lia.
  - now intros ->.
  - intros m rest ->. split; intros H.
    + assert (E : (50 <? String.length (content m))%nat = false)
        by (apply Nat.ltb_ge; lia).
      rewrite E, sliceTo_all by exact H.
      clear. induction (content m) as [|c t IH]; [reflexivity|].
      change (String c (t ++ "") = String c t). now rewrite IH.
    + assert (E : (50 <? String.length (content m))%nat = true)
        by (apply Nat.ltb_lt; lia).
      rewrite E. split; [reflexivity|]. split.
      * rewrite string_length_append, sliceTo_length.
        change (String.length "...") with 3%nat. lia.
      * apply sliceTo_prefix.
Qed.

Lemma title_bounded_witness :
  title (handleNewChat init) = "New Chat" /\
  title init = "What is chromatography?" /\
  title (run [ClickNewChat; Type_ "x"; PressEnter; ClickNewChat; TimerFires] init) =
    "Based on the documents in your knowledge base, I f...".
Proof.
  split; [|split].
  - apply (proj1 (proj2 (title_bounded (handleNewChat init)))). reflexivity.
  - apply (proj1 (proj2 (proj2 (title_bounded init)) _ _ eq_refl)).
    simpl. lia.
  - assert (Hlong : (50 < String.length (content assistantReply))%nat)
      by (vm_compute; lia).
    destruct (proj2 (proj2 (proj2 (title_bounded
                (run [ClickNewChat; Type_ "x"; PressEnter; ClickNewChat; TimerFires] init)))
                _ _ eq_refl) Hlong) as [H _].
    exact H.
Defined.

End RagChatMore.

(** ** Sending, on both pages *)

Section SendFacts.

Lemma posted_differs (s : RagChat.State) : RagChat.posted s <> s.
Proof.
  intros H. apply (f_equal RagChat.timers) in H. simpl in H. lia.
Qed.

Lemma aitable_posted_differs (s : AiTable.State) : AiTable.posted s <> s.
Proof.
  intros H. apply (f_equal AiTable.timers) in H. simpl in H. lia.
Qed.

(** A send goes through exactly when the input has a code unit that is
    not white space: then, and only then, the handler posts the
    message; otherwise it returns the state as it was.  This holds for
    [handleSend] on the document page and for [sendMsg] on the table
    page. *)
Theorem send_accepted_iff_ink :
  (forall s, JSText.hasInk (RagChat.input s) <->
             RagChat.handleSend s = JS.normal (RagChat.posted s)) /\
  (forall s, ~ JSText.hasInk (RagChat.input s) <->
             RagChat.handleSend s = JS.normal s) /\
  (forall s, JSText.hasInk (AiTable.chatInput s) <->
             AiTable.sendMsg s = JS.normal (AiTable.posted s)) /\
  (forall s, ~ JSText.hasInk (AiTable.chatInput s) <->
             AiTable.sendMsg s = JS.normal s).
Proof.
  split; [|split; [|split]]; intros s; rewrite <- truthy_trim_ink.
  - unfold RagChat.handleSend. destruct (JS.truthy _); simpl; split.
    + reflexivity.
    + reflexivity.
    + discriminate.
    + intros H. injection H as H. symmetry in H. now apply posted_differs in H.
  - unfold RagChat.handleSend. destruct (JS.truthy _); simpl; split.
    + intros H. exfalso. now apply H.
    + intros H. injection H as H. now apply posted_differs in H.
    + reflexivity.
    + intros _. discriminate.
  - unfold AiTable.sendMsg. destruct (JS.truthy _); simpl; split.
    + reflexivity.
    + reflexivity.
    + discriminate.
    + intros H. injection H as H. symmetry in H. now apply aitable_posted_differs in H.
  - unfold AiTable.sendMsg. destruct (JS.truthy _); simpl; split.
    + intros H. exfalso. now apply H.
    + intros H. injection H as H. now apply aitable_posted_differs in H.
    + reflexivity.
    + intros _. discriminate.
Qed.

Lemma send_accepted_iff_ink_witness :
  let s := RagChat.setInput " ok " RagChat.init in
  JSText.hasInk (RagChat.input s) /\
  RagChat.handleSend s = JS.normal (RagChat.posted s) /\
  RagChat.messages (RagChat.posted s) =
    RagChat.MOCK_MESSAGES ++ [RagChat.mkMessage "user" "ok" None].
Proof.
  assert (H : JSText.hasInk (RagChat.input (RagChat.setInput " ok " RagChat.init))).
  { exists "o"%char. split; [simpl; auto | reflexivity]. }
  split; [exact H|]. split; [|reflexivity].
  exact (proj1 (proj1 send_accepted_iff_ink _) H).
Defined.

Lemma ragchat_send_twice (s : RagChat.State) :
  JS.settle (RagChat.handleSend (JS.settle (RagChat.handleSend s) s))
            (JS.settle (RagChat.handleSend s) s)
  = JS.settle (RagChat.handleSend s) s.
Proof.
  rewrite (handleSend_settle s).
  destruct (JS.truthy (JS.trim (RagChat.input s))) eqn:E.
  - reflexivity.
  - now rewrite handleSend_settle, E.
Qed.

Lemma aitable_send_twice (s : AiTable.State) :
  JS.settle (AiTable.sendMsg (JS.settle (AiTable.sendMsg s) s))
            (JS.settle (AiTable.sendMsg s) s)
  = JS.settle (AiTable.sendMsg s) s.
Proof.
  rewrite (sendMsg_settle s).
  destruct (JS.truthy (JS.trim (AiTable.chatInput s))) eqn:E.
  - reflexivity.
  - now rewrite sendMsg_settle, E.
Qed.

Lemma clickLayout_idempotent (s : AiTable.State) :
  AiTable.clickLayout (AiTable.clickLayout s) = AiTable.clickLayout s.
Proof.
  unfold AiTable.clickLayout, AiTable.setDrops; simpl.
  now destruct (AiTable.tableDropOpen s), (AiTable.sheetDropOpen s).
Qed.

(** A double submit sends once.  Because an accepted send clears the
    input, repeating the same key press or the same click on the send
    button right away changes nothing further; and only an unshifted
    Enter submits at all: Shift+Enter and every other key leave the
    state as it is. *)
Theorem double_submit_sends_once :
  (forall key shift s,
     RagChatView.onKeyDown key shift (RagChatView.onKeyDown key shift s) =
     RagChatView.onKeyDown key shift s) /\
  (forall s, RagChat.step RagChat.ClickSend (RagChat.step RagChat.ClickSend s) =
             RagChat.step RagChat.ClickSend s) /\
  (forall key shift s,
     AiTableChat.onKeyDown key shift (AiTableChat.onKeyDown key shift s) =
     AiTableChat.onKeyDown key shift s) /\
  (forall s, AiTable.step AiTable.ClickChatSend (AiTable.step AiTable.ClickChatSend s) =
             AiTable.step AiTable.ClickChatSend s) /\
  (forall key shift s t, key <> "Enter" \/ shift = true ->
     RagChatView.onKeyDown key shift s = s /\ AiTableChat.onKeyDown key shift t = t).
Proof.
  split; [|split; [|split; [|split]]].
  - intros key shift s. unfold RagChatView.onKeyDown.
    destruct (String.eqb key "Enter" && negb shift); [apply ragchat_send_twice | reflexivity].
  - intros s. simpl. rewrite (handleSend_settle s).
    destruct (JS.truthy (JS.trim (RagChat.input s))) eqn:E; simpl; [reflexivity|].
    now rewrite E.
  - intros key shift s. unfold AiTableChat.onKeyDown.
    destruct (String.eqb key "Enter" && negb shift); [apply aitable_send_twice | reflexivity].
  - intros s. simpl. destruct (AiTable.chatOpen s) eqn:Ec.
    + rewrite (sendMsg_settle s).
      destruct (JS.truthy (JS.trim (AiTable.chatInput s))) eqn:E.
      * assert (Ec' : AiTable.chatOpen (AiTable.clickLayout (AiTable.posted s)) = true)
          by exact Ec.
        rewrite Ec', sendMsg_settle. simpl. apply clickLayout_idempotent.
      * assert (Ec' : AiTable.chatOpen (AiTable.clickLayout s) = true) by exact Ec.
        rewrite Ec', sendMsg_settle. simpl. rewrite E. apply clickLayout_idempotent.
    + now rewrite Ec.
  - intros key shift s t H.
    assert (E : String.eqb key "Enter" && negb shift = false).
    { destruct H as [H | ->].
      - apply String.eqb_neq in H. now rewrite H.
      - apply andb_false_r. }
    unfold RagChatView.onKeyDown, AiTableChat.onKeyDown. now rewrite E.
Qed.

Lemma double_submit_sends_once_witness :
  let s := RagChat.setInput "hi" RagChat.init in
  RagChatView.onKeyDown "Enter" true s = s /\
  RagChat.messages (RagChatView.onKeyDown "Enter" false (RagChatView.onKeyDown "Enter" false s)) =
    RagChat.MOCK_MESSAGES ++ [RagChat.mkMessage "user" "hi" None].
Proof.
  split.
  - apply (proj2 (proj2 (proj2 (proj2 double_submit_sends_once))) "Enter" true
             (RagChat.setInput "hi" RagChat.init) AiTable.init).
    now right.
  - rewrite (proj1 double_submit_sends_once). reflexivity.
Defined.

End SendFacts.

(** ** The empty state, the suggestions and the badges *)

Section RagChatViewFacts.

Import RagChat RagChatView.

Lemma step_showEmpty_kept (e : Event) (s : State) :
  showEmpty s = true -> sendsNow e s = false ->
  (forall i, e <> ClickSuggestion i) ->
  showEmpty (step e s) = true.
Proof.
  intros Hs Hn Hi. destruct e; simpl in *; try exact Hs; try reflexivity.
  - rewrite handleSend_settle, Hn. exact Hs.
  - now rewrite Hn.
  - now contradiction (Hi i).
  - unfold replyTimer. now destruct (timers s).
Qed.

(** After New Chat the empty state stays on screen until a send is
    accepted or a suggestion is clicked: nothing else, a late reply
    included, brings the conversation back into view.  An accepted send
    always brings it back. *)
Theorem empty_state_persists :
  (forall es s, showEmpty s = true ->
     occurrences sendsNow es s = 0%nat ->
     (forall i, ~ In (ClickSuggestion i) es) ->
     showEmpty (run es s) = true /\ emptyShown (run es s) = true) /\
  (forall s, emptyShown (handleNewChat s) = true) /\
  (forall e s, sendsNow e s = true -> emptyShown (step e s) = false).
Proof.
  split; [|split].
  - intros es. induction es as [|e es IH]; intros s Hs Hocc Hsug.
    + simpl. unfold emptyShown. rewrite Hs. split; [reflexivity | apply orb_true_r].
    + change (run (e :: es) s) with (run es (step e s)).
      cbn [occurrences] in Hocc.
      destruct (sendsNow e s) eqn:En; [simpl in Hocc; lia|].
      apply IH.
      * apply step_showEmpty_kept; [exact Hs | exact En |].
        intros i ->. apply (Hsug i). now left.
      * simpl in Hocc. exact Hocc.
      * intros i Hi. apply (Hsug i). now right.
  - reflexivity.
  - intros e s H. unfold emptyShown. rewrite step_messages, H, length_app.
    assert (Ht : JS.truthy (JS.trim (input s)) = true)
      by (destruct e; simpl in H; try discriminate; exact H).
    replace (showEmpty (step e s)) with false.
    + simpl. rewrite orb_false_r. apply Nat.eqb_neq. lia.
    + destruct e; simpl in H; try discriminate; simpl;
        rewrite ?handleSend_settle, Ht; reflexivity.
Qed.

Lemma empty_state_persists_witness :
  let s := run [Type_ "x"; PressEnter; ClickNewChat] init in
  let es := [TimerFires; Type_ " "; PressEnter; Blur] in
  showEmpty s = true /\ occurrences sendsNow es s = 0%nat /\
  messages (run es s) = [assistantReply] /\ emptyShown (run es s) = true.
Proof.
  assert (Hsug : forall i, ~ In (ClickSuggestion i) [TimerFires; Type_ " "; PressEnter; Blur]).
  { intros i. simpl. intros [H|[H|[H|[H|[]]]]]; discriminate H. }
  split; [reflexivity|]. split; [reflexivity|]. split; [reflexivity|].
  exact (proj2 (proj1 empty_state_persists
                  [TimerFires; Type_ " "; PressEnter; Blur]
                  (run [Type_ "x"; PressEnter; ClickNewChat] init)
                  eq_refl eq_refl Hsug)).
Defined.

(** From any state, New Chat, a click on one of the four suggestions,
    Enter and the reply timer leave a conversation of exactly two
    messages: the suggested question as typed in the list (each is
    non-blank and already trimmed) and the assistant's reply; the input
    is empty again and no timer has been added. *)
Theorem suggestion_flow (s : State) (i : nat) (q : string)
    (H : nth_error SUGGESTED_QUESTIONS i = Some q) :
  let s' := run [ClickNewChat; ClickSuggestion i; PressEnter; TimerFires] s in
  messages s' = [mkMessage "user" q None; assistantReply] /\
  input s' = "" /\ showEmpty s' = false /\ timers s' = timers s.
Proof.
  destruct s as [ms inp se foc tm].
  destruct i as [|[|[|[|i]]]]; simpl in H;
    try (injection H as <-; repeat split; reflexivity).
  destruct i; discriminate H.
Qed.

Lemma suggestion_flow_witness :
  messages (run [ClickNewChat; ClickSuggestion 2; PressEnter; TimerFires] init) =
    [mkMessage "user" "Compare HPLC and GC for volatile compounds" None; assistantReply].
Proof.
  exact (proj1 (suggestion_flow init 2 "Compare HPLC and GC for volatile compounds" eq_refl)).
Defined.

(** While the conversation is on screen the suggestions are not, and a
    click cannot reach them. *)
Example suggestion_not_shown : step (ClickSuggestion 0) init = init.
Proof. reflexivity. Qed.

(** *** Badges and card colours *)

Lemma to_int_round_trip (v : Z) :
  option_map Z.of_int (NilZero.int_of_string (NilZero.string_of_int (Z.to_int v))) = Some v.
Proof.
  rewrite NilZero.isi.
  - simpl. now rewrite DecimalZ.of_to.
  - destruct v; simpl; try discriminate.
    intros H. injection H as H. now apply DecimalPos.Unsigned.to_uint_nonnil in H.
  - destruct v; simpl; try discriminate.
    intros H. injection H as H. now apply DecimalPos.Unsigned.to_uint_nonnil in H.
Qed.

Lemma append_percent_inj (a b : string) :
  (a ++ "%")%string = (b ++ "%")%string -> a = b.
Proof.
  revert b. induction a as [|x a IH]; intros [|y b] H.
  - reflexivity.
  - change (String "%" "" = String y (b ++ "%")%string) in H.
    injection H as _ H. destruct b; discriminate H.
  - change (String x (a ++ "%")%string = String "%" "") in H.
    injection H as _ H. destruct a; discriminate H.
  - change (String x (a ++ "%")%string = String y (b ++ "%")%string) in H.
    injection H as -> H. f_equal. now apply IH.
Qed.

(** The relevance badge has three tiers with inclusive lower bounds: 85
    and above, 70 to 84, below 70; text colour and background always
    come from the same tier.  Its text is the score in decimal followed
    by a percent sign, so (for integer scores below 10^21 in size,
    which JavaScript prints in full) two badges with the same text show
    the same score. *)
Theorem relevance_badge_tiers :
  (forall v, (85 <= v)%Z ->
     color (RelevanceBadge v) = C.accent9 /\ bg (RelevanceBadge v) = C.accent2) /\
  (forall v, (70 <= v < 85)%Z ->
     color (RelevanceBadge v) = C.sec9 /\ bg (RelevanceBadge v) = C.sec1) /\
  (forall v, (v < 70)%Z ->
     color (RelevanceBadge v) = C.tert9 /\ bg (RelevanceBadge v) = "#ffd4ec55") /\
  (forall v w, (Z.abs v < 10 ^ 21)%Z -> (Z.abs w < 10 ^ 21)%Z ->
     shown (RelevanceBadge v) = shown (RelevanceBadge w) -> v = w).
Proof.
  split; [|split; [|split]].
  - intros v H. unfold RelevanceBadge; simpl.
    assert (E : (85 <=? v)%Z = true) by (apply Z.leb_le; lia).
    now rewrite E.
  - intros v H. unfold RelevanceBadge; simpl.
    assert (E1 : (85 <=? v)%Z = false) by (apply Z.leb_gt; lia).
    assert (E2 : (70 <=? v)%Z = true) by (apply Z.leb_le; lia).
    now rewrite E1, E2.
  - intros v H. unfold RelevanceBadge; simpl.
    assert (E1 : (85 <=? v)%Z = false) by (apply Z.leb_gt; lia).
    assert (E2 : (70 <=? v)%Z = false) by (apply Z.leb_gt; lia).
    now rewrite E1, E2.
  - intros v w _ _ H. unfold RelevanceBadge in H; simpl in H.
    apply append_percent_inj in H.
    pose proof (to_int_round_trip v) as Hv.
    pose proof (to_int_round_trip w) as Hw.
    rewrite H in Hv. congruence.
Qed.

Lemma relevance_badge_tiers_witness :
  color (RelevanceBadge 85) = C.accent9 /\
  color (RelevanceBadge 84) = C.sec9 /\
  color (RelevanceBadge 69) = C.tert9 /\
  (shown (RelevanceBadge 94) = shown (RelevanceBadge 94) -> 94 = 94)%Z.
Proof.
  split; [|split; [|split]].
  - apply (proj1 relevance_badge_tiers). lia.
  - apply (proj1 (proj2 relevance_badge_tiers)). lia.
  - apply (proj1 (proj2 (proj2 relevance_badge_tiers))). lia.
  - apply (proj2 (proj2 (proj2 relevance_badge_tiers))); simpl; lia.
Defined.

(** A source card always gets one of the three colour pairs, never
    [undefined]: the pairs repeat with period three and two neighbouring
    cards never share one. *)
Theorem card_colors_cycle (index : nat) :
  exists c, cardColor index = Some c /\
            cardColor (index + 3) = Some c /\
            cardColor (S index) <> Some c.
Proof.
  unfold cardColor.
  assert (E3 : ((index + 3) mod 3 = index mod 3)%nat).
  { replace (index + 3)%nat with (index + 1 * 3)%nat by lia.
    apply Nat.Div0.mod_add. }
  assert (ES : (S index mod 3 = (index mod 3 + 1) mod 3)%nat).
  { replace (S index) with (index + 1)%nat by lia.
    now rewrite <- Nat.Div0.add_mod_idemp_l. }
  rewrite E3, ES.
  pose proof (Nat.mod_upper_bound index 3) as Hb.
  destruct (index mod 3)%nat as [|[|[|n]]]; [| | |lia];
    eexists; (split; [reflexivity|]); (split; [reflexivity|]); discriminate.
Qed.

End RagChatViewFacts.

(** ** The port cleanup script *)

Section KillPortFacts.

Import KillPort.

Variable Sys : Type.
Variable lsof : string -> Sys -> list string.
Variable kill9 : string -> Sys -> Sys.
Variable script : string.

Local Abbreviation killEach := (KillPort.killEach Sys kill9).
Local Abbreviation forPort := (KillPort.forPort Sys lsof kill9 script).
Local Abbreviation forPorts := (KillPort.forPorts Sys lsof kill9 script).
Local Abbreviation main := (KillPort.main Sys lsof kill9 script).

Lemma effects_app (a b : list Action) : effects (a ++ b) = effects a ++ effects b.
Proof. apply List.filter_app. Qed.

Lemma killEach_spec (pids : list string) (sys : Sys) :
  effects (fst (killEach pids sys)) = List.map Kill pids /\
  snd (killEach pids sys) = fold_left (fun st pid => kill9 pid st) pids sys.
Proof.
  revert sys. induction pids as [|pid rest IH]; intros sys; simpl; [auto|].
  specialize (IH (kill9 pid sys)).
  destruct (killEach rest (kill9 pid sys)) as [acts sys'] eqn:E.
  simpl in *. destruct IH as [IH1 IH2]. now rewrite IH1, IH2.
Qed.

Lemma forPort_invalid (port : string) (sys : Sys) :
  isNumber port = false ->
  effects (fst (forPort port sys)) = [] /\ snd (forPort port sys) = sys /\
  List.length (fst (forPort port sys)) = 2%nat.
Proof. intros H. unfold KillPort.forPort. rewrite H. simpl. auto. Qed.

(** One round of the loop on a numeric argument asks [lsof] once and
    then kills every pid it reported, each once, in the order
    reported, and nothing else. *)
Theorem port_round_kills_reported (port : string) (sys : Sys)
    (H : isNumber port = true) :
  effects (fst (forPort port sys)) = Query port :: List.map Kill (lsof port sys) /\
  snd (forPort port sys) = fold_left (fun st pid => kill9 pid st) (lsof port sys) sys.
Proof.
  unfold KillPort.forPort. rewrite H. cbn [negb].
  destruct (lsof port sys) as [|pid rest] eqn:E; [simpl; auto|].
  pose proof (killEach_spec (pid :: rest) sys) as HK.
  destruct (killEach (pid :: rest) sys) as [acts sys'].
  destruct HK as [H1 H2]. cbn [fst snd] in *.
  split; [|exact H2].
  rewrite !effects_app, H1. unfold effects at 1 2. cbn [List.filter].
  now rewrite app_nil_r.
Qed.

(** Arguments that are not numbers are reported and skipped; they do
    not stop the loop and change nothing: the calls made and the
    machine left behind are those of a run on the numeric arguments
    alone. *)
Theorem invalid_ports_are_skipped (args : list string) (sys : Sys) :
  effects (fst (forPorts args sys)) =
    effects (fst (forPorts (List.filter isNumber args) sys)) /\
  snd (forPorts args sys) = snd (forPorts (List.filter isNumber args) sys).
Proof.
  revert sys. induction args as [|port rest IH]; intros sys; [auto|].
  cbn [KillPort.forPorts List.filter].
  destruct (isNumber port) eqn:E.
  - cbn [KillPort.forPorts].
    destruct (forPort port sys) as [acts sys1].
    specialize (IH sys1).
    destruct (forPorts rest sys1) as [acts1 sys2].
    destruct (forPorts (List.filter isNumber rest) sys1) as [acts1' sys2'].
    simpl in *. destruct IH as [IH1 IH2].
    now rewrite !effects_app, IH1, IH2.
  - pose proof (forPort_invalid port sys E) as (H1 & H2 & _).
    destruct (forPort port sys) as [acts sys1]. simpl in H1, H2. subst sys1.
    specialize (IH sys).
    destruct (forPorts rest sys) as [acts1 sys2].
    simpl in *. now rewrite effects_app, H1.
Qed.

(** The script kills only what [lsof] reported for a numeric argument:
    every pid handed to [kill -9] was printed by the [lsof] call the
    script made for one of its arguments, on the machine as the
    arguments before it had left it; that argument is a non-empty
    string of digits, and the query for it is among the script's calls. *)
Theorem kills_come_from_queries (args : list string) (sys : Sys) (pid : string)
    (H : In (Kill pid) (fst (forPorts args sys))) :
  exists before port after,
    args = before ++ port :: after /\ isNumber port = true /\
    In pid (lsof port (snd (forPorts before sys))) /\
    In (Query port) (fst (forPorts args sys)).
Proof.
  revert sys H. induction args as [|port rest IH]; intros sys H; [contradiction|].
  cbn [KillPort.forPorts] in *.
  destruct (forPort port sys) as [acts sys1] eqn:Ep.
  destruct (forPorts rest sys1) as [acts1 sys2] eqn:Er.
  simpl in H. apply in_app_iff in H. destruct H as [H | H].
  - assert (He : In (Kill pid) (effects acts))
      by (apply filter_In; split; [exact H | reflexivity]).
    destruct (isNumber port) eqn:E.
    + pose proof (port_round_kills_reported port sys E) as [H1 _].
      rewrite Ep in H1. simpl in H1. rewrite H1 in He.
      destruct He as [He | He]; [discriminate He|].
      apply in_map_iff in He. destruct He as [x [Hx Hin]]. injection Hx as ->.
      exists [], port, rest. split; [reflexivity|]. split; [exact E|].
      split; [exact Hin|].
      simpl. apply in_app_iff. left.
      assert (Hq : In (Query port) (effects acts)) by (rewrite H1; now left).
      apply filter_In in Hq. tauto.
    + pose proof (forPort_invalid port sys E) as [H1 _].
      rewrite Ep in H1. simpl in H1. rewrite H1 in He. contradiction.
  - specialize (IH sys1). rewrite Er in IH.
    destruct (IH H) as (before & p & after & Hargs & Hn & Hin & Hq).
    exists (port :: before), p, after.
    split; [now rewrite Hargs|]. split; [exact Hn|]. split.
    + cbn [KillPort.forPorts]. rewrite Ep.
      destruct (forPorts before sys1) as [actsb sysb]. exact Hin.
    + simpl. apply in_app_iff. now right.
Qed.

(** The exit status is 1 exactly when the script is called without
    arguments, in which case it calls nothing.  With arguments it is 0
    whatever happened, also when every argument was rejected; then two
    lines are printed per argument and nothing is called. *)
Theorem exit_status_ignores_rejections :
  (forall sys, main [] sys =
     ([Echo "Error: At least one port number is required"; KillPort.usage script], sys, 1%Z)) /\
  (forall args sys, args <> [] -> snd (main args sys) = 0%Z) /\
  (forall args sys, forallb (fun a => negb (isNumber a)) args = true ->
     effects (fst (forPorts args sys)) = [] /\
     snd (forPorts args sys) = sys /\
     List.length (fst (forPorts args sys)) = (2 * List.length args)%nat).
Proof.
  split; [reflexivity|]. split.
  - intros [|a args] sys H; [congruence|].
    unfold KillPort.main. now destruct (forPorts (a :: args) sys).
  - intros args. induction args as [|a rest IH]; intros sys H; [auto|].
    simpl in H. apply andb_true_iff in H. destruct H as [Ha Hr].
    apply negb_true_iff in Ha.
    pose proof (forPort_invalid a sys Ha) as (H1 & H2 & H3).
    cbn [KillPort.forPorts].
    destruct (forPort a sys) as [acts sys1]. simpl in H1, H2, H3. subst sys1.
    destruct (IH sys Hr) as (I1 & I2 & I3).
    destruct (forPorts rest sys) as [acts1 sys2]. simpl in *.
    rewrite effects_app, H1, I1, length_app, H3, I3. repeat split; [exact I2 | lia].
Qed.

End KillPortFacts.

Section KillPortRuns.

Import KillPort.

Example kill_two_ports :
  let '(acts, m, status) :=
    main Machine machineLsof machineKill "./kill_port_processes.sh"
         ["8511"; "85x2"; "8512"] demoMachine in
  effects acts = [Query "8511"; Kill "101"; Kill "102"; Query "8512"] /\
  m = [("103", ["9000"])] /\ status = 0%Z.
Proof. repeat split; reflexivity. Qed.

Lemma port_round_kills_reported_witness :
  isNumber "8511" = true /\
  effects (fst (forPort Machine machineLsof machineKill "kill.sh" "8511" demoMachine)) =
    [Query "8511"; Kill "101"; Kill "102"].
Proof.
  split; [reflexivity|].
  exact (proj1 (port_round_kills_reported Machine machineLsof machineKill "kill.sh"
                  "8511" demoMachine eq_refl)).
Defined.

Lemma kills_come_from_queries_witness :
  In (Kill "102")
     (fst (forPorts Machine machineLsof machineKill "kill.sh" ["x"; "8511"] demoMachine)) /\
  exists before port after,
    ["x"; "8511"] = before ++ port :: after /\ isNumber port = true /\
    In "102" (machineLsof port
                (snd (forPorts Machine machineLsof machineKill "kill.sh" before demoMachine))) /\
    In (Query port)
       (fst (forPorts Machine machineLsof machineKill "kill.sh" ["x"; "8511"] demoMachine)).
Proof.
  assert (H : In (Kill "102")
                (fst (forPorts Machine machineLsof machineKill "kill.sh"
                        ["x"; "8511"] demoMachine)))
    by (vm_compute; tauto).
  split; [exact H|].
  exact (kills_come_from_queries Machine machineLsof machineKill "kill.sh"
           ["x"; "8511"] demoMachine "102" H).
Defined.

Lemma exit_status_ignores_rejections_witness :
  snd (main Machine machineLsof machineKill "kill.sh" ["http"; ""; "80 "] demoMachine) = 0%Z /\
  snd (forPorts Machine machineLsof machineKill "kill.sh" ["http"; ""; "80 "] demoMachine)
    = demoMachine.
Proof.
  split.
  - apply (proj1 (proj2 (exit_status_ignores_rejections
                           Machine machineLsof machineKill "kill.sh"))).
    discriminate.
  - apply (proj2 (proj2 (exit_status_ignores_rejections
                           Machine machineLsof machineKill "kill.sh"))).
    reflexivity.
Defined.

End KillPortRuns.

(** ** Retrieval: bounded and ranked *)

Section RetrievalFacts.

Import RagRetrieval.

Lemma insertByScore_length (c : Chunk) (l : list Chunk) :
  List.length (insertByScore c l) = S (List.length l).
Proof.
  induction l as [|d rest IH]; simpl; [reflexivity|].
  destruct (QArith_base.Qle_bool (score d) (score c)); simpl; [reflexivity|].
  now rewrite IH.
Qed.

Lemma rankDescending_length (l : list Chunk) :
  List.length (rankDescending l) = List.length l.
Proof.
  induction l as [|c l IH]; simpl; [reflexivity|].
  fold (rankDescending l). now rewrite insertByScore_length, IH.
Qed.

Lemma insertByScore_In (c x : Chunk) (l : list Chunk) :
  In x (insertByScore c l) -> x = c \/ In x l.
Proof.
  induction l as [|d rest IH]; simpl.
  - intros [<-|[]]. now left.
  - destruct (QArith_base.Qle_bool (score d) (score c)); simpl.
    + intros [<-|[<-|H]]; auto.
    + intros [<-|H]; auto. destruct (IH H); auto.
Qed.

Lemma rankDescending_In (x : Chunk) (l : list Chunk) :
  In x (rankDescending l) -> In x l.
Proof.
  induction l as [|c l IH]; simpl; [tauto|].
  fold (rankDescending l). intros H.
  apply insertByScore_In in H. destruct H as [->|H]; auto.
Qed.

Lemma insertByScore_Forall (P : Chunk -> Prop) (c : Chunk) (l : list Chunk) :
  P c -> Forall P l -> Forall P (insertByScore c l).
Proof.
  intros Hc Hl. induction Hl as [|d rest Hd Hrest IH]; simpl.
  - constructor; [exact Hc | constructor].
  - destruct (QArith_base.Qle_bool (score d) (score c)).
    + constructor; [exact Hc|]. constructor; assumption.
    + constructor; assumption.
Qed.

Lemma insertByScore_descending (c : Chunk) (l : list Chunk) :
  descendingScores l -> descendingScores (insertByScore c l).
Proof.
  unfold descendingScores.
  induction 1 as [|d rest Hs IH Hd]; simpl.
  - constructor; constructor.
  - destruct (QArith_base.Qle_bool (score d) (score c)) eqn:E.
    + apply QArith_base.Qle_bool_iff in E.
      constructor; [constructor; assumption|].
      constructor; [exact E|].
      eapply Forall_impl; [|exact Hd].
      intros x Hx. simpl in *. eapply QArith_base.Qle_trans; eassumption.
    + assert (Hlt : QArith_base.Qle (score c) (score d)).
      { apply QArith_base.Qlt_le_weak, QArith_base.Qnot_le_lt.
        intros H. apply QArith_base.Qle_bool_iff in H. congruence. }
      constructor; [exact IH|].
      apply insertByScore_Forall; assumption.
Qed.

Lemma rankDescending_descending (l : list Chunk) :
  descendingScores (rankDescending l).
Proof.
  induction l as [|c l IH]; simpl.
  - constructor.
  - fold (rankDescending l). now apply insertByScore_descending.
Qed.

Lemma Forall_firstn' {A} (P : A -> Prop) (n : nat) (l : list A) :
  Forall P l -> Forall P (List.firstn n l).
Proof.
  intros H. revert n. induction H as [|x l Hx Hl IH]; intros [|n]; simpl;
    constructor; auto.
Qed.

Lemma firstn_descending (n : nat) (l : list Chunk) :
  descendingScores l -> descendingScores (List.firstn n l).
Proof.
  unfold descendingScores. intros H. revert n.
  induction H as [|d rest Hs IH Hd]; intros [|n]; simpl; try constructor.
  - apply IH.
  - now apply Forall_firstn'.
Qed.

Lemma firstn_In {A} (n : nat) (l : list A) (x : A) :
  In x (List.firstn n l) -> In x l.
Proof.
  revert l. induction n as [|n IH]; intros [|y l]; simpl; try tauto.
  intros [H|H]; auto.
Qed.

(** C1. Every retrieval call with [topK = N] that returns, returns at
    most [N] chunks, as many as [N] and the backend's hits allow, all
    of them hits, in descending order of relevance score; and it does
    return for every [N >= 1] and every method the backend supports.
    On the page, the first [N] mock sources are at most [N] and
    descending, [MOCK_SOURCES] is descending, the reply of [handleSend]
    carries its first three, and every source list attached to a
    message of a reachable state is descending. *)
Theorem sources_bounded_descending :
  (forall a kb query method N chunks,
     retrieveChunks a kb query method N = inr chunks ->
     (List.length chunks <= N)%nat /\
     List.length chunks = Nat.min N (List.length (hits a kb query method)) /\
     descendingScores chunks /\
     (forall c, In c chunks -> In c (hits a kb query method))) /\
  (forall a kb query method N,
     (1 <= N)%nat -> In method (supportedMethods a) ->
     exists chunks, retrieveChunks a kb query method N = inr chunks) /\
  (forall N, (List.length (JS.slice 0 N RagChat.MOCK_SOURCES) <= N)%nat /\
             Spec.descending (JS.slice 0 N RagChat.MOCK_SOURCES)) /\
  Spec.descending RagChat.MOCK_SOURCES /\
  RagChat.sources RagChat.assistantReply = Some (JS.slice 0 3 RagChat.MOCK_SOURCES) /\
  (forall s m srcs,
     RagChat.reachable s -> In m (RagChat.messages s) ->
     RagChat.sources m = Some srcs -> Spec.descending srcs).
Proof.
  split; [|split; [|split; [|split; [|split]]]].
  - intros a kb query method N chunks. unfold retrieveChunks.
    destruct (N =? 0)%nat; [discriminate|].
    destruct (negb _); [discriminate|].
    intros H. injection H as <-.
    split; [apply List.firstn_le_length|]. split; [|split].
    + now rewrite List.length_firstn, rankDescending_length.
    + apply firstn_descending, rankDescending_descending.
    + intros c Hc. apply rankDescending_In. eapply firstn_In, Hc.
  - intros a kb query method N HN Hm. unfold retrieveChunks.
    assert (E0 : (N =? 0)%nat = false) by (apply Nat.eqb_neq; lia).
    assert (E1 : existsb (method_eqb method) (supportedMethods a) = true).
    { apply existsb_exists. exists method. split; [exact Hm|]. now destruct method. }
    rewrite E0, E1. simpl. eexists. reflexivity.
  - intros N. split.
    + pose proof (slice_length 0 N RagChat.MOCK_SOURCES). lia.
    + apply slice_descending, MOCK_SOURCES_descending.
  - apply MOCK_SOURCES_descending.
  - reflexivity.
  - intros s m srcs Hs Hm Hsrc.
    destruct (reachable_sources s m srcs Hs Hm Hsrc) as [-> | ->].
    + apply MOCK_SOURCES_descending.
    + apply slice_descending, MOCK_SOURCES_descending.
Qed.

(** The retrieval scenario of the spec: five hits, [topK = 3]. *)
Lemma sources_bounded_descending_witness :
  let result := retrieveChunks fixtureAdapter "kb" "chromatography" semantic 3 in
  let s := RagChat.run [RagChat.Type_ "HPLC?"; RagChat.PressEnter; RagChat.TimerFires]
                       RagChat.init in
  (exists chunks, result = inr chunks /\
     List.map chunkId chunks = ["c2"; "c4"; "c5"] /\
     (List.length chunks <= 3)%nat /\ descendingScores chunks) /\
  RagChat.reachable s /\ In RagChat.assistantReply (RagChat.messages s) /\
  Spec.descending (JS.slice 0 3 RagChat.MOCK_SOURCES).
Proof.
  split.
  - eexists. split; [reflexivity|]. split; [reflexivity|].
    destruct (proj1 sources_bounded_descending fixtureAdapter "kb" "chromatography"
                semantic 3%nat _ eq_refl) as (H1 & _ & H3 & _).
    split; [exact H1 | exact H3].
  - assert (Hr : RagChat.reachable
                   (RagChat.run [RagChat.Type_ "HPLC?"; RagChat.PressEnter; RagChat.TimerFires]
                                RagChat.init))
      by (eexists; reflexivity).
    assert (Hin : In RagChat.assistantReply
                     (RagChat.messages
                        (RagChat.run [RagChat.Type_ "HPLC?"; RagChat.PressEnter;
                                      RagChat.TimerFires] RagChat.init)))
      by (simpl; auto).
    split; [exact Hr|]. split; [exact Hin|].
    exact (proj2 (proj2 (proj2 (proj2 (proj2 sources_bounded_descending)))) _ _ _ Hr Hin eq_refl).
Defined.

Example retrieve_rejections :
  retrieveChunks fixtureAdapter "kb" "chromatography" hybrid 3 = inl UnsupportedMethod /\
  retrieveChunks fixtureAdapter "kb" "chromatography" semantic 0 = inl InvalidInput /\
  option_map (List.length (A:=Chunk))
    (match retrieveChunks fixtureAdapter "kb" "chromatography" keyword 9 with
     | inr l => Some l | inl _ => None end) = Some 5%nat.
Proof. repeat split; reflexivity. Qed.

End RetrievalFacts.

(** ** The chat turn: fragments of the stream, replies of the page *)

Section StreamFacts.

Import RagStream.













Example cancelled_turn :
  let t := chatStream [FromBackend (Answer "Hel"); CallerCancels; FromBackend (Answer "lo")] in
  phase t = Cancelled /\ List.map sequence (delivered t) = [0%nat] /\
  List.map kind (delivered t) = [token].
Proof. repeat split; reflexivity. Qed.

End StreamFacts.

(** ** Uploading: empty content and blank names *)

Section UploadFacts.

Import RagService RagUpload.



End UploadFacts.
